(** * DAA Mother Server (server.js): conversation memory and backend routing

    A shallow embedding of [server.js]: the SQLite [history] table and its
    two helpers ([getGlobalHistoryFromDB], [saveToDB]), the Express
    response object, and the two route handlers [GET /api/models] and
    [POST /api/chat], written in a small state-and-exception monad.

    Everything outside [server.js] that the handlers talk to (the two AI
    backends, the listing endpoints, the error SQLite may hand to
    [db.all]'s callback, the environment variable [GOOGLE_API_KEY], the
    persona text of [persona.js]) is collected in the record [Env]; the
    theorems quantify over it.  The ECMAScript built-in
    [String.prototype.toLowerCase] is a section variable. *)

From Stdlib Require Import String Ascii ZArith List Lia Bool.
From stdpp Require Import base list sorting strings.

Open Scope string_scope.
Open Scope list_scope.
Open Scope Z_scope.

(** ** JavaScript strings and truthiness *)

Module Js.

(** A JavaScript string is kept as the string of its UTF-8 bytes, the
    way the literals of the source file are encoded. *)

(** [v || d] and [v ? a : b] on a value that is a string, [null] or
    [undefined]: the empty string, [null] and [undefined] are falsy. *)
Definition truthy (v : option string) : bool :=
  match v with
  | Some EmptyString => false
  | Some _ => true
  | None => false
  end.

(** [v || d] where [d] is a string. *)
Definition or_else (v : option string) (d : string) : string :=
  match v with
  | Some (String a s) => String a s
  | _ => d
  end.

(** [v || null]. *)
Definition or_null (v : option string) : option string :=
  if truthy v then v else None.

Fixpoint starts_with (pat s : string) : bool :=
  match pat, s with
  | EmptyString, _ => true
  | String a pat', String b s' => if Ascii.eqb a b then starts_with pat' s' else false
  | String _ _, EmptyString => false
  end.

(** [s.includes(pat)]: [pat] occurs in [s] as a contiguous substring. *)
Fixpoint includes (s pat : string) : bool :=
  if starts_with pat s then true
  else match s with
       | EmptyString => false
       | String _ s' => includes s' pat
       end.

Fixpoint drop_chars (n : nat) (s : string) : string :=
  match n, s with
  | O, _ => s
  | S n', String _ s' => drop_chars n' s'
  | S _, EmptyString => EmptyString
  end.

(** [s.replace(pat, rep)] with a string pattern: only the first
    occurrence is replaced. *)
Fixpoint replace (s pat rep : string) : string :=
  if starts_with pat s then rep +:+ drop_chars (String.length pat) s
  else match s with
       | EmptyString => EmptyString
       | String a s' => String a (replace s' pat rep)
       end.

(** String concatenation with a value that may be [undefined], as a
    template literal or [+] does it. *)
Definition to_display (v : option string) : string :=
  match v with
  | Some s => s
  | None => "undefined"
  end.

(** A lowercasing of the UTF-8 bytes that covers Basic Latin and the
    Latin-1 Supplement letters; used to instantiate [toLowerCase]
    on concrete inputs. *)
Definition lower_ascii (a : ascii) : ascii :=
  let n := nat_of_ascii a in
  if (Nat.leb 65 n && Nat.leb n 90)%bool then ascii_of_nat (n + 32) else a.

Definition lower_latin1_tail (a : ascii) : ascii :=
  let n := nat_of_ascii a in
  if (Nat.leb 128 n && Nat.leb n 158 && negb (Nat.eqb n 151))%bool
  then ascii_of_nat (n + 32) else a.

Fixpoint lower_utf8 (s : string) : string :=
  match s with
  | EmptyString => EmptyString
  | String a s' =>
      if Nat.eqb (nat_of_ascii a) 195 then
        match s' with
        | String b s'' => String a (String (lower_latin1_tail b) (lower_utf8 s''))
        | EmptyString => String a EmptyString
        end
      else String (lower_ascii a) (lower_utf8 s')
  end.

End Js.

(** ** The [history] table *)

Module Store.

(** A row of [history].  The [timestamp] column is filled in by SQLite
    and selected by no query of the server; it is left out. *)
Record Row := mkRow {
  id : Z;
  role : string;
  content : option string;
  image : option string
}.

Definition Table := list Row.

(** What [SELECT role, content, image] returns for one row. *)
Record Msg := mkMsg {
  msg_role : string;
  msg_content : option string;
  msg_image : option string
}.

Definition project (r : Row) : Msg :=
  mkMsg (role r) (content r) (image r).

Definition max_id (t : Table) : Z :=
  foldr (fun r m => Z.max (id r) m) 0 t.

(** [INSERT INTO history (role, content, image) VALUES (?, ?, ?)]:
    the [INTEGER PRIMARY KEY AUTOINCREMENT] column gets one more than
    the largest id in use (rows are never deleted). *)
Definition next_id (t : Table) : Z := max_id t + 1.

Definition insert (ro : string) (c im : option string) (t : Table) : Table :=
  t ++ [mkRow (next_id t) ro c im].

Definition id_le (a b : Row) : Prop := id a <= id b.
Definition id_ge (a b : Row) : Prop := id b <= id a.

#[global] Instance id_le_dec a b : Decision (id_le a b) := Z_le_dec _ _.
#[global] Instance id_ge_dec a b : Decision (id_ge a b) := Z_le_dec _ _.

Definition order_by_id_asc (t : list Row) : list Row := merge_sort id_le t.
Definition order_by_id_desc (t : list Row) : list Row := merge_sort id_ge t.

(** [SELECT * FROM history ORDER BY id DESC LIMIT limit] *)
Definition latest (limit : nat) (t : Table) : list Row :=
  take limit (order_by_id_desc t).

(** [SELECT role, content, image FROM (SELECT * FROM history ORDER BY id
    DESC LIMIT limit) ORDER BY id ASC] *)
Definition recent_rows (limit : nat) (t : Table) : list Row :=
  order_by_id_asc (latest limit t).

Definition recent (limit : nat) (t : Table) : list Msg :=
  map project (recent_rows limit t).

(** A log of appended turns, written from the empty table. *)
Definition Turn := (string * option string * option string)%type.

Definition append_turn (t : Table) (x : Turn) : Table :=
  insert x.1.1 x.1.2 x.2 t.

Definition appended (turns : list Turn) : Table :=
  foldl append_turn [] turns.

Definition turn_msg (x : Turn) : Msg := mkMsg x.1.1 x.1.2 x.2.

Definition id_lt (a b : Row) : Prop := id a < id b.

(** Ids strictly increase along the table (insertion order). *)
Definition ascending (t : Table) : Prop := StronglySorted id_lt t.

End Store.

(** ** Handlers: world, outcomes and the handler monad *)

Module Server.

Import Js.

(** A thrown JavaScript [Error]; [error.message] is all the server reads. *)
Record Error := mkError { message : string }.

(** *** What the world outside [server.js] answers *)

(** One element of [data.models] of the cloud listing endpoint. *)
Record GeminiModelInfo := mkGeminiModelInfo {
  gm_name : option string;
  gm_supportedGenerationMethods : option (list string);
  gm_displayName : option string
}.

(** [await fetch(url)] followed by [await response.json()] on the cloud
    listing endpoint: either of them rejects, or [data] is an object
    whose [models] field is an array or is missing. *)
Inductive GeminiListing :=
| ListingRejected (e : Error)
| ListingJson (models : option (list GeminiModelInfo)).

(** One element of [data.models] of [/api/tags]. *)
Record OllamaModelInfo := mkOllamaModelInfo { om_name : option string }.

Inductive OllamaTags :=
| TagsFetchRejected (e : Error)
| TagsNotOk
| TagsJsonRejected (e : Error)
| TagsJson (models : option (list OllamaModelInfo)).

(** A message of the body posted to Ollama's [/api/chat]. *)
Record OllamaMessage := mkOllamaMessage {
  o_role : string;
  o_content : option string;
  o_images : option (list string)
}.

Record OllamaRequest := mkOllamaRequest {
  o_model : string;
  o_messages : list OllamaMessage;
  o_stream : bool
}.

(** The answer to the Ollama chat call: [fetch] rejects, [response.json()]
    rejects, [data.message] is missing, or [data.message.content] is read. *)
Inductive OllamaReply :=
| ChatFetchRejected (e : Error)
| ChatJsonRejected (e : Error)
| ChatNoMessage
| ChatMessage (content : option string).

(** A [part] of a Gemini content. *)
Inductive Part :=
| TextPart (text : string)
| InlineData (mimeType : string) (data : string).

Record GeminiContent := mkGeminiContent {
  g_role : string;
  g_parts : list Part
}.

Record GeminiCall := mkGeminiCall {
  g_model : string;
  g_systemInstruction : string;
  g_history : list GeminiContent;
  g_message : list Part
}.

(** [result.stream]: a finite sequence of chunks, each giving its text,
    ended by exhaustion or by an error thrown while iterating (by the
    iterator or by [chunk.text()]). *)
Inductive Stream :=
| StreamEnd
| StreamError (e : Error)
| StreamChunk (chunkText : string) (rest : Stream).

(** [startChat] followed by [await chat.sendMessageStream(lastParts)]. *)
Inductive GeminiReply :=
| SendRejected (e : Error)
| SendStream (stream : Stream).

(** The surroundings of one request:
    - [GOOGLE_API_KEY]: [process.env.GOOGLE_API_KEY];
    - [ASSISTANT_PERSONA]: the text exported by [persona.js];
    - [db_all_err]: the [err] SQLite hands to the callback of [db.all];
    - [gemini_models], [ollama_tags]: the answers of the two listing
      endpoints;
    - [ollama_chat], [gemini_chat]: the answers of the two backends to
      the request they are sent. *)
Record Env := mkEnv {
  GOOGLE_API_KEY : option string;
  ASSISTANT_PERSONA : string;
  db_all_err : option Error;
  gemini_models : GeminiListing;
  ollama_tags : OllamaTags;
  ollama_chat : OllamaRequest -> OllamaReply;
  gemini_chat : GeminiCall -> GeminiReply
}.

(** *** The Express response *)

Record ModelEntry := mkModelEntry {
  entry_id : option string;
  entry_name : string
}.

Inductive Chunk :=
| Text (s : string)
| JsonModels (l : list ModelEntry).

(** [res]: the status code, the [Content-Type] header, whether the head
    has gone out, what has been written to the caller (in order) and
    whether the response has been ended. *)
Record Response := mkResponse {
  statusCode : Z;
  contentType : option string;
  headersSent : bool;
  body : list Chunk;
  finished : bool
}.

Definition fresh_response : Response := mkResponse 200 None false [] false.

(** *** Outbound calls, in the order they are made *)

Inductive Event :=
| DbAll (limit : nat)
| DbRun (role : string) (content image : option string)
| OllamaChatCall (req : OllamaRequest)
| GeminiChatCall (call : GeminiCall)
| GeminiModelsCall (key : string)
| OllamaTagsCall.

Definition is_backend_call (ev : Event) : bool :=
  match ev with
  | OllamaChatCall _ | GeminiChatCall _ => true
  | _ => false
  end.

Record World := mkWorld {
  db : Store.Table;
  res : Response;
  calls : list Event
}.

Definition start (t : Store.Table) : World := mkWorld t fresh_response [].

(** *** The monad: state passing with exceptions *)

Inductive Outcome (A : Type) :=
| Returned (a : A)
| Thrown (e : Error).
Arguments Returned {A} a.
Arguments Thrown {A} e.

Definition M (A : Type) : Type := World -> Outcome A * World.

Definition ret {A} (a : A) : M A := fun w => (Returned a, w).

Definition throw {A} (e : Error) : M A := fun w => (Thrown e, w).

Definition bind {A B} (m : M A) (k : A -> M B) : M B :=
  fun w =>
    match m w with
    | (Returned a, w') => k a w'
    | (Thrown e, w') => (Thrown e, w')
    end.

(** [try { body } catch (error) { handler }] *)
Definition try_catch {A} (body : M A) (handler : Error -> M A) : M A :=
  fun w =>
    match body w with
    | (Returned a, w') => (Returned a, w')
    | (Thrown e, w') => handler e w'
    end.

Notation "'let*' x ':=' m 'in' k" := (bind m (fun x => k))
  (at level 10, x name, m at level 100, k at level 200).
Notation "m ';;' k" := (bind m (fun _ => k))
  (at level 100, k at level 200, right associativity).

Definition type_error_reading (prop : string) : Error :=
  mkError ("Cannot read properties of undefined (reading '" +:+ prop +:+ "')").

Definition headers_sent_error : Error :=
  mkError "Cannot set headers after they are sent to the client".

Definition log_call (ev : Event) : M unit :=
  fun w => (Returned tt, mkWorld (db w) (res w) (calls w ++ [ev])).

Definition update_res (f : Response -> Response) : M unit :=
  fun w => (Returned tt, mkWorld (db w) (f (res w)) (calls w)).

Definition get_res : M Response := fun w => (Returned (res w), w).

(** [res.setHeader('Content-Type', v)] *)
Definition res_setContentType (v : string) : M unit :=
  let* r := get_res in
  if headersSent r then throw headers_sent_error
  else update_res (fun r => mkResponse (statusCode r) (Some v) false (body r) (finished r)).

(** [res.write(chunk)]: the head is flushed with the first write. *)
Definition res_write (chunk : string) : M unit :=
  update_res (fun r =>
    mkResponse (statusCode r) (contentType r) true (body r ++ [Text chunk]) (finished r)).

(** [res.end()] *)
Definition res_end : M unit :=
  update_res (fun r =>
    mkResponse (statusCode r) (contentType r) true (body r) true).

(** [res.status(code)] *)
Definition res_status (code : Z) : M unit :=
  update_res (fun r =>
    mkResponse code (contentType r) (headersSent r) (body r) (finished r)).

(** [res.send(text)] with a string or [undefined].  For a string Express
    sets the [Content-Type] header (with its charset), which throws once
    the head has been sent; [undefined] ends the response with no body. *)
Definition res_send (text : option string) : M unit :=
  let* r := get_res in
  match text with
  | Some s =>
      if headersSent r then throw headers_sent_error
      else update_res (fun r =>
        mkResponse (statusCode r)
          (Some (match contentType r with
                 | Some t => t
                 | None => "text/html; charset=utf-8"
                 end))
          true (body r ++ [Text s]) true)
  | None =>
      update_res (fun r =>
        mkResponse (statusCode r) (contentType r) true (body r) true)
  end.

(** [res.json(allModels)] *)
Definition res_json (l : list ModelEntry) : M unit :=
  let* r := get_res in
  if headersSent r then throw headers_sent_error
  else update_res (fun r =>
    mkResponse (statusCode r)
      (Some (match contentType r with
             | Some t => t
             | None => "application/json; charset=utf-8"
             end))
      true (body r ++ [JsonModels l]) true).

(** *** Database helpers *)

(** [getGlobalHistoryFromDB(fetchMore)]: [db.all] calls back with an
    error (the promise rejects) or with the rows of the query. *)
Definition getGlobalHistoryFromDB (env : Env) (fetchMore : bool)
  : M (list Store.Msg) :=
  let limit := if fetchMore then 150%nat else 60%nat in
  log_call (DbAll limit) ;;
  match db_all_err env with
  | Some err => throw err
  | None => fun w => (Returned (Store.recent limit (db w)), w)
  end.

(** [saveToDB(role, content, image = null)]: the statement is run on the
    one connection of the process, in the order the calls are made. *)
Definition saveToDB (role : string) (content image : option string) : M unit :=
  fun w =>
    (Returned tt,
     mkWorld (Store.insert role content image (db w)) (res w)
             (calls w ++ [DbRun role content image])).

(** *** [GET /api/models] *)

Fixpoint filterM {A} (p : A -> M bool) (l : list A) : M (list A) :=
  match l with
  | [] => ret []
  | x :: l' =>
      let* keep := p x in
      let* rest := filterM p l' in
      ret (if keep then x :: rest else rest)
  end.

Fixpoint mapM {A B} (f : A -> M B) (l : list A) : M (list B) :=
  match l with
  | [] => ret []
  | x :: l' =>
      let* y := f x in
      let* rest := mapM f l' in
      ret (y :: rest)
  end.

(** [m.name.includes('gemini') &&
     m.supportedGenerationMethods.includes('generateContent')] *)
Definition is_gemini_generator (m : GeminiModelInfo) : M bool :=
  match gm_name m with
  | None => throw (type_error_reading "includes")
  | Some name =>
      if includes name "gemini" then
        match gm_supportedGenerationMethods m with
        | None => throw (type_error_reading "includes")
        | Some methods => ret (existsb (String.eqb "generateContent") methods)
        end
      else ret false
  end.

(** [{ id: m.name.replace('models/', ''), name: `☁️ ${m.displayName}` }] *)
Definition cloud_entry (m : GeminiModelInfo) : M ModelEntry :=
  match gm_name m with
  | None => throw (type_error_reading "replace")
  | Some name =>
      ret (mkModelEntry (Some (replace name "models/" ""))
                        ("☁️ " +:+ to_display (gm_displayName m)))
  end.

(** [{ id: m.name, name: `🏠 Ollama: ${m.name}` }] *)
Definition local_entry (m : OllamaModelInfo) : ModelEntry :=
  mkModelEntry (om_name m) ("🏠 Ollama: " +:+ to_display (om_name m)).

(** The body of the first [try]: the cloud listing. *)
Definition cloud_models (env : Env) (key : string) (allModels : list ModelEntry)
  : M (list ModelEntry) :=
  log_call (GeminiModelsCall key) ;;
  match gemini_models env with
  | ListingRejected e => throw e
  | ListingJson None => throw (type_error_reading "filter")
  | ListingJson (Some models) =>
      let* kept := filterM is_gemini_generator models in
      let* entries := mapM cloud_entry kept in
      ret (allModels ++ entries)
  end.

(** The body of the second [try]: the local listing. *)
Definition local_models (env : Env) (allModels : list ModelEntry)
  : M (list ModelEntry) :=
  log_call OllamaTagsCall ;;
  match ollama_tags env with
  | TagsFetchRejected e => throw e
  | TagsNotOk => ret allModels
  | TagsJsonRejected e => throw e
  | TagsJson None => throw (type_error_reading "map")
  | TagsJson (Some models) => ret (allModels ++ map local_entry models)
  end.

Definition models_handler (env : Env) : M unit :=
  let allModels : list ModelEntry := [] in
  let* allModels :=
    match GOOGLE_API_KEY env with
    | Some (String a k) =>
        try_catch (cloud_models env (String a k) allModels)
                  (fun _ => ret allModels)
    | _ => ret allModels
    end in
  let* allModels :=
    try_catch (local_models env allModels) (fun _ => ret allModels) in
  res_json allModels.

(** *** [POST /api/chat] *)

(** An element of [req.body.messages]: an object whose [role], [content]
    and [image] are strings or missing. *)
Record Incoming := mkIncoming {
  in_role : option string;
  in_content : option string;
  in_image : option string
}.

(** [req.body]: [messages] is an array of such objects or missing,
    [model] a string or missing. *)
Record ChatBody := mkChatBody {
  messages : option (list Incoming);
  model : option string
}.

(** [...(image && { images: [image] })] *)
Definition ollama_images (image : option string) : option (list string) :=
  match image with
  | Some (String a s) => Some [String a s]
  | _ => None
  end.

Definition ollama_message (msg : Store.Msg) : OllamaMessage :=
  mkOllamaMessage (Store.msg_role msg) (Store.msg_content msg)
                  (ollama_images (Store.msg_image msg)).

(** [image ? [{ inlineData: { mimeType: "image/jpeg", data: image } }] : []] *)
Definition image_parts (image : option string) : list Part :=
  match image with
  | Some (String a s) => [InlineData "image/jpeg" (String a s)]
  | _ => []
  end.

Definition gemini_content (msg : Store.Msg) : GeminiContent :=
  mkGeminiContent
    (if String.eqb (Store.msg_role msg) "assistant" then "model" else "user")
    (TextPart (or_else (Store.msg_content msg) " ")
       :: image_parts (Store.msg_image msg)).

(** [for await (const chunk of result.stream) { ... }] *)
Fixpoint consume (stream : Stream) (fullAiResp : string) : M string :=
  match stream with
  | StreamEnd => ret fullAiResp
  | StreamError e => throw e
  | StreamChunk chunkText rest =>
      let fullAiResp := fullAiResp +:+ chunkText in
      res_write chunkText ;;
      consume rest fullAiResp
  end.

Section Chat.

(** [String.prototype.toLowerCase] *)
Variable toLowerCase : string -> string.

Definition is_summarize (userText : string) : bool :=
  includes userText "summera" || includes userText "sammanfatta"
  || includes userText "minns du".

(** The Ollama branch of the [try] block. *)
Definition ollama_branch (env : Env) (currentModel : string)
    (lastIncoming : Incoming) (chatHistory : list Store.Msg) : M unit :=
  let ollamaMessages :=
    map ollama_message chatHistory
    ++ [mkOllamaMessage "user" (in_content lastIncoming)
                        (ollama_images (in_image lastIncoming))] in
  let req := mkOllamaRequest currentModel ollamaMessages false in
  log_call (OllamaChatCall req) ;;
  let* aiText :=
    match ollama_chat env req with
    | ChatFetchRejected e => throw e
    | ChatJsonRejected e => throw e
    | ChatNoMessage => throw (type_error_reading "content")
    | ChatMessage content => ret content
    end in
  saveToDB "assistant" aiText None ;;
  res_send aiText.

(** The Gemini branch of the [try] block. *)
Definition gemini_branch (env : Env) (currentModel : string)
    (lastIncoming : Incoming) (chatHistory : list Store.Msg) : M unit :=
  let geminiHistory := map gemini_content chatHistory in
  let lastParts :=
    TextPart (or_else (in_content lastIncoming) " ")
      :: image_parts (in_image lastIncoming) in
  let call :=
    mkGeminiCall currentModel (ASSISTANT_PERSONA env) geminiHistory lastParts in
  log_call (GeminiChatCall call) ;;
  let* stream :=
    match gemini_chat env call with
    | SendRejected e => throw e
    | SendStream stream => ret stream
    end in
  res_setContentType "text/plain; charset=utf-8" ;;
  let* fullAiResp := consume stream "" in
  saveToDB "assistant" (Some fullAiResp) None ;;
  res_end.

(** The [try] block of the chat route. *)
Definition chat_try (env : Env) (currentModel : string)
    (lastIncoming : Incoming) (userText : string) : M unit :=
  let isSummarize := is_summarize userText in
  let* chatHistory := getGlobalHistoryFromDB env isSummarize in
  saveToDB "user" (in_content lastIncoming) (or_null (in_image lastIncoming)) ;;
  if negb (includes currentModel "gemini")
  then ollama_branch env currentModel lastIncoming chatHistory
  else gemini_branch env currentModel lastIncoming chatHistory.

(** The [catch] block of the chat route. *)
Definition chat_catch (error : Error) : M unit :=
  res_status 500 ;;
  res_send (Some ("Nova Error: " +:+ message error)).

(** [messages[messages.length - 1]] and the read of its [content]:
    both happen before the [try] block is entered. *)
Definition last_incoming (b : ChatBody) : M Incoming :=
  match messages b with
  | None => throw (type_error_reading "length")
  | Some ms =>
      match last ms with
      | None => throw (type_error_reading "content")
      | Some lastIncoming => ret lastIncoming
      end
  end.

Definition chat_handler (env : Env) (b : ChatBody) : M unit :=
  let currentModel := or_else (model b) "gemini-1.5-flash" in
  let* lastIncoming := last_incoming b in
  let userText := toLowerCase (or_else (in_content lastIncoming) "") in
  try_catch (chat_try env currentModel lastIncoming userText) chat_catch.

End Chat.

End Server.

(** ** Vocabulary of the properties *)

Module Spec.

Import Js Server.

(** The fragments a stream hands out before it ends or breaks. *)
Fixpoint emitted (stream : Stream) : list string :=
  match stream with
  | StreamEnd => []
  | StreamError _ => []
  | StreamChunk chunkText rest => chunkText :: emitted rest
  end.

(** The error a stream breaks with, if it does. *)
Fixpoint stream_error (stream : Stream) : option Error :=
  match stream with
  | StreamEnd => None
  | StreamError e => Some e
  | StreamChunk _ rest => stream_error rest
  end.

(** Concatenation of fragments. *)
Definition join (fragments : list string) : string :=
  foldr String.append "" fragments.

(** The incoming turn of a request body: the last element of
    [messages], when there is one. *)
Definition incoming (b : ChatBody) : option Incoming :=
  match messages b with
  | Some ms => last ms
  | None => None
  end.

(** The row the incoming turn becomes in a table [t]. *)
Definition user_row (t : Store.Table) (m : Incoming) : Store.Row :=
  Store.mkRow (Store.next_id t) "user" (in_content m) (or_null (in_image m)).

Definition assistant_row (t : Store.Table) (text : option string) : Store.Row :=
  Store.mkRow (Store.next_id t) "assistant" text None.


Definition sammanfatta_request : string := "kan du sammanfatta vårt samtal".

(** The batch call failed: transport error, a body that is not JSON, or
    an answer without a message. *)
Definition ollama_failed (r : OllamaReply) : bool :=
  match r with
  | ChatMessage _ => false
  | _ => true
  end.

(** The streaming call failed: rejected at once, or the stream broke
    before completion. *)
Definition gemini_failed (r : GeminiReply) : bool :=
  match r with
  | SendRejected _ => true
  | SendStream stream =>
      match stream_error stream with
      | Some _ => true
      | None => false
      end
  end.

(** [ev] is a backend call and the backend's answer to it is a failure. *)
Definition call_failed (env : Env) (ev : Event) : bool :=
  match ev with
  | OllamaChatCall req => ollama_failed (ollama_chat env req)
  | GeminiChatCall call => gemini_failed (gemini_chat env call)
  | _ => false
  end.

(** The response is a completed 4xx answer. *)
Definition is_client_error (r : Response) : bool :=
  finished r && (400 <=? statusCode r) && (statusCode r <? 500).

(** The response is a completed answer of any status. *)
Definition answered (r : Response) : bool := finished r.

(** What the cloud source contributes on its own: [None] when it is
    unavailable or fails (no key, the fetch or the JSON decoding
    rejects, no [models] array, an entry without the fields the filter
    reads), else the entries of the gemini models that declare
    [generateContent]. *)
Fixpoint cloud_filter (models : list GeminiModelInfo)
  : option (list (string * GeminiModelInfo)) :=
  match models with
  | [] => Some []
  | m :: models' =>
      match gm_name m with
      | None => None
      | Some name =>
          let keep :=
            if includes name "gemini" then
              match gm_supportedGenerationMethods m with
              | None => None
              | Some methods =>
                  Some (existsb (String.eqb "generateContent") methods)
              end
            else Some false in
          match keep, cloud_filter models' with
          | Some true, Some rest => Some ((name, m) :: rest)
          | Some false, Some rest => Some rest
          | _, _ => None
          end
      end
  end.

Definition cloud_label (x : string * GeminiModelInfo) : ModelEntry :=
  mkModelEntry (Some (replace x.1 "models/" ""))
               ("☁️ " +:+ to_display (gm_displayName x.2)).

Definition cloud_source (env : Env) : option (list ModelEntry) :=
  if truthy (GOOGLE_API_KEY env) then
    match gemini_models env with
    | ListingJson (Some models) =>
        match cloud_filter models with
        | Some kept => Some (map cloud_label kept)
        | None => None
        end
    | _ => None
    end
  else None.

(** What the local source contributes on its own: [None] when it is
    unreachable or its answer cannot be read. *)
Definition local_source (env : Env) : option (list ModelEntry) :=
  match ollama_tags env with
  | TagsJson (Some models) => Some (map local_entry models)
  | _ => None
  end.

End Spec.


(** ** Concrete requests and environments *)

Module Sample.

Import Js Server Spec.

(** The table after "hej" and its answer. *)
Definition table_two : Store.Table :=
  Store.appended
    [("user", Some "hej", None); ("assistant", Some "hej själv", None)].

(** No cloud key, the local backend unreachable, the cloud stream
    breaking after the fragment "Hel". *)
Definition env_down : Env :=
  mkEnv None "Du är Malte." None
    (ListingRejected (mkError "fetch failed"))
    (TagsFetchRejected (mkError "fetch failed"))
    (fun _ => ChatFetchRejected (mkError "fetch failed"))
    (fun _ => SendStream (StreamChunk "Hel" (StreamError (mkError "stream aborted")))).

(** Both backends answering. *)
Definition env_up : Env :=
  mkEnv (Some "key") "Du är Malte." None
    (ListingJson (Some
       [mkGeminiModelInfo (Some "models/gemini-1.5-flash")
          (Some ["generateContent"; "countTokens"]) (Some "Gemini 1.5 Flash");
        mkGeminiModelInfo (Some "models/embedding-001")
          (Some ["embedContent"]) (Some "Embedding 001")]))
    (TagsJson (Some [mkOllamaModelInfo (Some "llama3")]))
    (fun _ => ChatMessage (Some "hej!"))
    (fun _ => SendStream (StreamChunk "Hej" (StreamChunk " du" StreamEnd))).

Definition recall_turn : Incoming :=
  mkIncoming (Some "user") (Some sammanfatta_request) None.

Definition blank_turn : Incoming :=
  mkIncoming (Some "user") (Some "") (Some "aGVq").

(** No [model]: the default cloud model. *)
Definition body_recall : ChatBody := mkChatBody (Some [recall_turn]) None.

Definition body_blank : ChatBody :=
  mkChatBody (Some [recall_turn; blank_turn]) (Some "gemini-pro-vision").

(** A model name of neither family, with an image attached. *)
Definition body_unknown : ChatBody :=
  mkChatBody (Some [blank_turn]) (Some "no-such-family").

Definition body_empty : ChatBody := mkChatBody (Some []) None.

Definition body_absent : ChatBody := mkChatBody None (Some "llama3").

Definition recall_call : GeminiCall :=
  mkGeminiCall "gemini-1.5-flash" "Du är Malte."
    [mkGeminiContent "user" [TextPart "hej"];
     mkGeminiContent "model" [TextPart "hej själv"]]
    [TextPart sammanfatta_request].

Definition blank_call : GeminiCall :=
  mkGeminiCall "gemini-pro-vision" "Du är Malte."
    [mkGeminiContent "user" [TextPart "hej"];
     mkGeminiContent "model" [TextPart "hej själv"]]
    [TextPart " "; InlineData "image/jpeg" "aGVq"].

(** A turn with a text and an image, on the default cloud model. *)
Definition photo_turn : Incoming :=
  mkIncoming (Some "user") (Some "vad ser du?") (Some "aGVq").

Definition body_photo : ChatBody := mkChatBody (Some [photo_turn]) None.

(** The history read failing, both backends answering. *)
Definition env_read_fault : Env :=
  mkEnv (Some "key") "Du är Malte." (Some (mkError "SQLITE_IOERR: disk I/O error"))
    (ListingRejected (mkError "fetch failed"))
    TagsNotOk
    (fun _ => ChatMessage (Some "hej!"))
    (fun _ => SendStream (StreamChunk "Hej" StreamEnd)).

End Sample.

(** ** Further vocabulary: errors, listing predicates, more requests *)

Module Cover.

Import Js Server Spec.

(** The error the batch call hands to the [catch] block, when it fails. *)
Definition ollama_error (r : OllamaReply) : option Error :=
  match r with
  | ChatFetchRejected e => Some e
  | ChatJsonRejected e => Some e
  | ChatNoMessage => Some (type_error_reading "content")
  | ChatMessage _ => None
  end.

(** The error a backend call fails with before anything has been written
    to the caller: any failure of the batch call, a rejected streaming
    call, a stream that breaks before its first fragment. *)
Definition early_error (env : Env) (ev : Event) : option Error :=
  match ev with
  | OllamaChatCall req => ollama_error (ollama_chat env req)
  | GeminiChatCall call =>
      match gemini_chat env call with
      | SendRejected e => Some e
      | SendStream stream =>
          match emitted stream with
          | [] => stream_error stream
          | _ :: _ => None
          end
      end
  | _ => None
  end.

(** An entry of the cloud listing the filter can read: it has a name,
    and its generation methods when the name contains "gemini". *)
Definition readable (m : GeminiModelInfo) : bool :=
  match gm_name m with
  | None => false
  | Some name =>
      if includes name "gemini" then
        match gm_supportedGenerationMethods m with
        | Some _ => true
        | None => false
        end
      else true
  end.

(** A gemini model that declares [generateContent]. *)
Definition listed (m : GeminiModelInfo) : bool :=
  match gm_name m, gm_supportedGenerationMethods m with
  | Some name, Some methods =>
      includes name "gemini" && existsb (String.eqb "generateContent") methods
  | _, _ => false
  end.

(** The entry of a model that has a name. *)
Definition cloud_entry_of (m : GeminiModelInfo) : ModelEntry :=
  mkModelEntry (Some (replace (or_else (gm_name m) "") "models/" ""))
               ("☁️ " +:+ to_display (gm_displayName m)).

(** The parts of a Gemini content are a non-empty text, then at most one
    inline jpeg. *)
Definition text_then_image (parts : list Part) : bool :=
  match parts with
  | [TextPart (String _ _)] => true
  | [TextPart (String _ _); InlineData mime (String _ _)] =>
      String.eqb mime "image/jpeg"
  | _ => false
  end.

(** Requests and environments. *)

Definition local_turn : Incoming := mkIncoming (Some "user") (Some "hej igen") None.

Definition body_local : ChatBody := mkChatBody (Some [local_turn]) (Some "llama3").

Definition body_empty_model : ChatBody := mkChatBody (Some [local_turn]) (Some "").

(** The history read failing. *)
Definition env_db_fault : Env :=
  mkEnv (Some "key") "Du är Malte." (Some (mkError "SQLITE_BUSY: database is locked"))
    (ListingRejected (mkError "fetch failed"))
    TagsNotOk
    (fun _ => ChatMessage (Some "hej!"))
    (fun _ => SendStream (StreamChunk "Hej" StreamEnd)).

(** The cloud listing holding an entry without a name; the cloud call
    rejected at once. *)
Definition env_cloud_broken : Env :=
  mkEnv (Some "key") "Du är Malte." None
    (ListingJson (Some
       [mkGeminiModelInfo (Some "models/gemini-1.5-flash")
          (Some ["generateContent"]) (Some "Gemini 1.5 Flash");
        mkGeminiModelInfo None (Some ["generateContent"]) None]))
    (TagsJson (Some [mkOllamaModelInfo (Some "llama3"); mkOllamaModelInfo None]))
    (fun _ => ChatNoMessage)
    (fun _ => SendRejected (mkError "API key not valid")).

Definition local_request : OllamaRequest :=
  mkOllamaRequest "llama3"
    [mkOllamaMessage "user" (Some "hej") None;
     mkOllamaMessage "assistant" (Some "hej själv") None;
     mkOllamaMessage "user" (Some "hej igen") None]
    false.

End Cover.

(** * Properties of the [history] table *)

Section SortedUnique.

Context {A : Type} (le lt : relation A).
Context `{!Transitive le}.
Hypothesis lt_not_ge : forall x y, lt x y -> le y x -> False.

(** A list sorted by [le] that is a permutation of a strictly sorted
    list is that list. *)
Lemma sorted_perm_strict (l1 l2 : list A) :
  Sorted le l1 -> StronglySorted lt l2 -> l1 ≡ₚ l2 -> l1 = l2.
Proof.
  intros Hs; apply Sorted_StronglySorted in Hs; [|done].
  revert l2; induction Hs as [|a1 l1 Hs1 IH Ha1]; intros l2 Hl2 Hp.
  - by apply Permutation_nil_l in Hp.
  - destruct Hl2 as [|a2 l2 Hs2 Ha2].
    + by apply Permutation_nil_r in Hp.
    + assert (a1 = a2) as ->.
      { assert (a1 ∈ a2 :: l2) as H1 by (rewrite <- Hp; left).
        assert (a2 ∈ a1 :: l1) as H2 by (rewrite Hp; left).
        apply elem_of_cons in H1 as [->|H1]; [done|].
        apply elem_of_cons in H2 as [->|H2]; [done|].
        rewrite Forall_forall in Ha1, Ha2.
        exfalso. eapply lt_not_ge; [apply Ha2, H1 | apply Ha1, H2]. }
      f_equal. apply IH; [done|]. by apply (inj (cons a2)).
Qed.

End SortedUnique.

Section StoreFacts.

Import Store.

#[local] Instance id_le_trans : Transitive id_le.
Proof. intros x y z; unfold id_le; lia. Qed.
#[local] Instance id_ge_trans : Transitive id_ge.
Proof. intros x y z; unfold id_ge; lia. Qed.
#[local] Instance id_lt_trans : Transitive id_lt.
Proof. intros x y z; unfold id_lt; lia. Qed.
#[local] Instance id_le_total : Total id_le.
Proof. intros x y; unfold id_le; lia. Qed.
#[local] Instance id_ge_total : Total id_ge.
Proof. intros x y; unfold id_ge; lia. Qed.

Lemma order_asc_of_perm (l t : list Row) :
  ascending t -> l ≡ₚ t -> order_by_id_asc l = t.
Proof.
  intros Ht Hp. apply (sorted_perm_strict id_le id_lt).
  - unfold id_lt, id_le; intros; lia.
  - apply Sorted_merge_sort; apply _.
  - exact Ht.
  - unfold order_by_id_asc. by rewrite merge_sort_Permutation.
Qed.

Lemma descending_reverse (t : list Row) :
  ascending t -> StronglySorted (flip id_lt) (reverse t).
Proof.
  intros Ht. apply Sorted_StronglySorted.
  - intros x y z; unfold flip, id_lt; lia.
  - apply Sorted_reverse. by apply StronglySorted_Sorted.
Qed.

Lemma order_desc_of_perm (l t : list Row) :
  ascending t -> l ≡ₚ t -> order_by_id_desc l = reverse t.
Proof.
  intros Ht Hp. apply (sorted_perm_strict id_ge (flip id_lt)).
  - unfold flip, id_lt, id_ge; intros; lia.
  - apply Sorted_merge_sort; apply _.
  - by apply descending_reverse.
  - unfold order_by_id_desc.
    by rewrite merge_sort_Permutation, reverse_Permutation.
Qed.

Lemma ascending_drop (n : nat) (t : list Row) :
  ascending t -> ascending (drop n t).
Proof.
  unfold ascending. intros Ht. rewrite <- (take_drop n t) in Ht.
  by apply StronglySorted_app in Ht as (_ & _ & ?).
Qed.

(** On a table whose ids increase in insertion order, the query returns
    the last [limit] rows, oldest first. *)
Lemma recent_rows_ascending (limit : nat) (t : Table) :
  ascending t -> recent_rows limit t = drop (length t - limit) t.
Proof.
  intros Ht. unfold recent_rows, latest.
  rewrite (order_desc_of_perm t t Ht) by done.
  rewrite take_reverse.
  apply order_asc_of_perm; [by apply ascending_drop|].
  apply reverse_Permutation.
Qed.

Lemma max_id_ge (t : Table) (r : Row) : r ∈ t -> id r <= max_id t.
Proof.
  induction t as [|x t IH]; [by rewrite elem_of_nil|].
  rewrite elem_of_cons; simpl. intros [->|H]; [lia|].
  specialize (IH H). lia.
Qed.

Lemma ascending_insert (ro : string) (c im : option string) (t : Table) :
  ascending t -> ascending (insert ro c im t).
Proof.
  intros Ht. unfold ascending, insert. apply StronglySorted_app.
  split_and!; [|done|repeat constructor].
  intros x1 x2 H1 ->%list_elem_of_singleton.
  unfold id_lt, next_id; simpl. apply max_id_ge in H1. lia.
Qed.

Lemma appended_snoc (turns : list Turn) (x : Turn) :
  appended (turns ++ [x]) = append_turn (appended turns) x.
Proof. unfold appended. by rewrite foldl_snoc. Qed.

Lemma ascending_appended (turns : list Turn) : ascending (appended turns).
Proof.
  induction turns as [|x turns IH] using rev_ind; [constructor|].
  rewrite appended_snoc. by apply ascending_insert.
Qed.

Lemma project_appended (turns : list Turn) :
  map project (appended turns) = map turn_msg turns.
Proof.
  induction turns as [|x turns IH] using rev_ind; [done|].
  rewrite appended_snoc. unfold append_turn, insert.
  rewrite !map_app, IH. by destruct x as [[??]?].
Qed.

Lemma length_appended (turns : list Turn) :
  length (appended turns) = length turns.
Proof.
  rewrite <- (length_map project), project_appended. apply length_map.
Qed.

Lemma max_id_snoc (t : Table) (r : Row) :
  max_id (t ++ [r]) = Z.max (max_id t) (id r).
Proof. induction t as [|y t IH]; simpl; [lia|]. rewrite IH. lia. Qed.

Lemma max_id_appended (turns : list Turn) :
  max_id (appended turns) = Z.of_nat (length turns).
Proof.
  induction turns as [|x turns IH] using rev_ind; [done|].
  rewrite appended_snoc. unfold append_turn, insert.
  rewrite max_id_snoc, length_app. simpl. unfold next_id. lia.
Qed.

(** The ids handed out are 1, 2, ..., N in append order. *)
Lemma ids_appended (turns : list Turn) :
  map id (appended turns) = seqZ 1 (Z.of_nat (length turns)).
Proof.
  induction turns as [|x turns IH] using rev_ind; [done|].
  rewrite appended_snoc. unfold append_turn, insert.
  rewrite map_app, IH, length_app, Nat2Z.inj_add.
  rewrite seqZ_app by lia. f_equal. simpl.
  unfold next_id. rewrite max_id_appended.
  change (Z.of_nat 1) with 1. rewrite seqZ_cons, seqZ_nil by lia. f_equal. lia.
Qed.

End StoreFacts.

(** * Strings *)

Section StringFacts.

Import Js.

Lemma append_cons (a : ascii) (s r : string) :
  String a s +:+ r = String a (s +:+ r).
Proof. reflexivity. Qed.

Lemma starts_with_spec (pat s : string) :
  starts_with pat s = true <-> exists rest, s = pat +:+ rest.
Proof.
  revert s; induction pat as [|a pat IH]; intros s; simpl.
  - split; [intros _; by exists s | done].
  - destruct s as [|b s]; [split; [done|intros [? ?]; done]|].
    destruct (Ascii.eqb_spec a b) as [->|Hne].
    + rewrite IH. split; intros [rest H]; exists rest;
        rewrite append_cons in *; congruence.
    + split; [done|]. intros [rest H]. rewrite append_cons in H. congruence.
Qed.


End StringFacts.

(** * The history read *)

Section HistoryRead.

Import Store Server.

(** C4: after any N appends to the empty table, the history query with
    limit [k] returns the last [k] appended turns (all of them when
    [k] exceeds N), oldest first; these are the rows with the [k]
    largest ids, the ids being 1..N in append order.  The read of
    [getGlobalHistoryFromDB] is that query with limit 150 or 60, leaves
    the table as it is, and read again gives the same outcome. *)
Theorem recent_is_last_k_ascending (turns : list Turn) (k : nat) :
  recent k (appended turns) = map turn_msg (drop (length turns - k) turns)
  /\ recent_rows k (appended turns)
     = drop (length turns - k) (appended turns)
  /\ map id (appended turns) = seqZ 1 (Z.of_nat (length turns))
  /\ length (recent k (appended turns)) = Nat.min k (length turns)
  /\ forall (env : Env) (fetchMore : bool) (w : World),
       let read := getGlobalHistoryFromDB env fetchMore in
       db (read w).2 = db w
       /\ (read (read w).2).1 = (read w).1
       /\ (db_all_err env = None ->
           (read w).1
           = Returned (recent (if fetchMore then 150 else 60)%nat (db w))).
Proof.
  assert (recent_rows k (appended turns)
          = drop (length turns - k) (appended turns)) as Hrows.
  { rewrite recent_rows_ascending by apply ascending_appended.
    by rewrite length_appended. }
  assert (recent k (appended turns)
          = map turn_msg (drop (length turns - k) turns)) as Hrec.
  { unfold recent. by rewrite Hrows, <- !skipn_map, project_appended. }
  split_and!; [done|done|apply ids_appended| |].
  - rewrite Hrec, length_map, length_drop. lia.
  - intros env fetchMore w read. subst read.
    unfold getGlobalHistoryFromDB, bind, log_call, throw.
    destruct (db_all_err env); simpl; split_and!; try done.
Qed.

End HistoryRead.

(** * Running the chat route *)

Section ChatRun.

Import Js Store Server Spec.

Variable toLowerCase : string -> string.

Lemma append_assoc (a b c : string) : (a +:+ b) +:+ c = a +:+ (b +:+ c).
Proof. induction a as [|x a IH]; [done|]. by rewrite !append_cons, IH. Qed.

Lemma append_empty_r (a : string) : a +:+ "" = a.
Proof. induction a as [|x a IH]; [done|]. by rewrite append_cons, IH. Qed.

(** The response after writing fragments one by one. *)
Lemma consume_run (stream : Stream) (acc : string) (w : World) :
  exists r,
    consume stream acc w
    = (match stream_error stream with
       | None => Returned (acc +:+ join (emitted stream))
       | Some e => Thrown e
       end,
       mkWorld (db w) r (calls w))
    /\ body r = body (res w) ++ map Text (emitted stream)
    /\ statusCode r = statusCode (res w)
    /\ contentType r = contentType (res w)
    /\ finished r = finished (res w)
    /\ headersSent r
       = match emitted stream with
         | [] => headersSent (res w)
         | _ => true
         end.
Proof.
  revert acc w; induction stream as [|e|chunkText rest IH]; intros acc w.
  - exists (res w). destruct w as [d [] c]; simpl.
    rewrite append_empty_r, app_nil_r. by unfold ret.
  - exists (res w). destruct w as [d [] c]; simpl.
    rewrite app_nil_r. by unfold throw.
  - simpl. unfold bind at 1. unfold res_write, update_res.
    destruct (IH (acc +:+ chunkText)
                (mkWorld (db w)
                   (mkResponse (statusCode (res w)) (contentType (res w)) true
                      (body (res w) ++ [Text chunkText]) (finished (res w)))
                   (calls w)))
      as (r & Hrun & Hb & Hs & Hc & Hf & Hh).
    exists r. rewrite Hrun. simpl in *. split_and!; try done.
    + by rewrite append_assoc.
    + by rewrite Hb, <- app_assoc.
    + rewrite Hh. by destruct (emitted rest).
Qed.

Lemma incoming_Some (b : ChatBody) (m : Incoming) :
  incoming b = Some m ->
  exists ms, messages b = Some ms /\ last ms = Some m.
Proof. unfold incoming. destruct (messages b) as [ms|]; [eauto|done]. Qed.

(** The catch block never touches the table or the call log, keeps
    what was already written, and sets status 500. *)
Lemma chat_catch_run (e : Error) (w : World) :
  exists o r,
    chat_catch e w = (o, mkWorld (db w) r (calls w))
    /\ statusCode r = 500
    /\ (headersSent (res w) = false ->
        o = Returned tt /\ finished r = true
        /\ body r = body (res w) ++ [Text ("Nova Error: " +:+ message e)])
    /\ (headersSent (res w) = true ->
        o = Thrown headers_sent_error /\ finished r = finished (res w)
        /\ body r = body (res w)).
Proof.
  destruct w as [d [st ct hs bd fin] c].
  unfold chat_catch, res_status, res_send, bind, update_res, get_res, throw.
  simpl. destruct hs; simpl; eexists _, _; split_and!; try done.
Qed.

(** What one well-formed request does, by backend and by the
    backend's answer. *)
Lemma chat_run (env : Env) (b : ChatBody) (t : Table) (m : Incoming) :
  incoming b = Some m -> db_all_err env = None ->
  let currentModel := or_else (model b) "gemini-1.5-flash" in
  let limit :=
    (if is_summarize (toLowerCase (or_else (in_content m) "")) then 150 else 60)%nat in
  let window := recent limit t in
  let t1 := t ++ [user_row t m] in
  let pre := [DbAll limit; DbRun "user" (in_content m) (or_null (in_image m))] in
  let run := chat_handler toLowerCase env b (start t) in
  if includes currentModel "gemini" then
    let call :=
      mkGeminiCall currentModel (ASSISTANT_PERSONA env)
        (map gemini_content window)
        (TextPart (or_else (in_content m) " ") :: image_parts (in_image m)) in
    match gemini_chat env call with
    | SendRejected e =>
        run.1 = Returned tt
        /\ db run.2 = t1
        /\ calls run.2 = pre ++ [GeminiChatCall call]
        /\ statusCode (res run.2) = 500
        /\ finished (res run.2) = true
        /\ body (res run.2) = [Text ("Nova Error: " +:+ message e)]
    | SendStream stream =>
        match stream_error stream with
        | None =>
            let text := Some (join (emitted stream)) in
            run.1 = Returned tt
            /\ db run.2 = t1 ++ [assistant_row t1 text]
            /\ calls run.2
               = pre ++ [GeminiChatCall call; DbRun "assistant" text None]
            /\ statusCode (res run.2) = 200
            /\ finished (res run.2) = true
            /\ body (res run.2) = map Text (emitted stream)
        | Some e =>
            db run.2 = t1
            /\ calls run.2 = pre ++ [GeminiChatCall call]
            /\ statusCode (res run.2) = 500
            /\ match emitted stream with
               | [] =>
                   run.1 = Returned tt
                   /\ finished (res run.2) = true
                   /\ body (res run.2) = [Text ("Nova Error: " +:+ message e)]
               | _ =>
                   run.1 = Thrown headers_sent_error
                   /\ finished (res run.2) = false
                   /\ body (res run.2) = map Text (emitted stream)
               end
        end
    end
  else
    let req :=
      mkOllamaRequest currentModel
        (map ollama_message window
         ++ [mkOllamaMessage "user" (in_content m) (ollama_images (in_image m))])
        false in
    match ollama_chat env req with
    | ChatMessage text =>
        run.1 = Returned tt
        /\ db run.2 = t1 ++ [assistant_row t1 text]
        /\ calls run.2
           = pre ++ [OllamaChatCall req; DbRun "assistant" text None]
        /\ statusCode (res run.2) = 200
        /\ finished (res run.2) = true
        /\ body (res run.2) = match text with Some s => [Text s] | None => [] end
    | _ =>
        run.1 = Returned tt
        /\ db run.2 = t1
        /\ calls run.2 = pre ++ [OllamaChatCall req]
        /\ statusCode (res run.2) = 500
        /\ finished (res run.2) = true
        /\ exists e, body (res run.2) = [Text ("Nova Error: " +:+ message e)]
    end.
Proof.
  intros Hm Hdb. apply incoming_Some in Hm as (ms & Hms & Hlast).
  intros currentModel limit window t1 pre run. subst run.
  unfold chat_handler, last_incoming. rewrite Hms, Hlast.
  unfold bind at 1. unfold ret at 1.
  fold currentModel.
  unfold try_catch, chat_try, getGlobalHistoryFromDB.
  fold limit. rewrite Hdb.
  unfold assistant_row. subst t1 pre window. unfold user_row.
  destruct (includes currentModel "gemini") eqn:Hg; simpl negb; cbv iota zeta.
  - unfold gemini_branch.
    unfold bind, log_call, saveToDB, start, throw, ret, insert; simpl.
    destruct (gemini_chat env _) as [e|stream]; simpl.
    + by split_and!.
    + unfold res_setContentType, get_res, update_res; simpl.
      match goal with |- context [consume stream "" ?w] =>
        destruct (consume_run stream "" w) as (r & Hrun & Hb & Hs & Hc & Hf & Hh);
        rewrite Hrun
      end.
      simpl in *. destruct (stream_error stream) as [e|]; simpl.
      * match goal with |- context [chat_catch e ?w] =>
          destruct (chat_catch_run e w) as (o & r' & Hc' & Hst & Hns & Hse);
          rewrite Hc'
        end.
        simpl in *. split_and!; try done.
        destruct (emitted stream); simpl in *.
        -- destruct (Hns Hh) as (-> & ? & ->). by rewrite Hb.
        -- destruct (Hse Hh) as (-> & -> & ->). by rewrite Hf, Hb.
      * unfold res_end, update_res, insert. simpl. by rewrite Hs, Hb.
  - unfold ollama_branch.
    unfold bind, log_call, saveToDB, start, throw, ret, insert; simpl.
    destruct (ollama_chat env _) as [e|e| |text]; simpl.
    + split_and!; try done. by exists e.
    + split_and!; try done. by exists e.
    + split_and!; try done. by exists (type_error_reading "content").
    + destruct text; simpl; by split_and!.
Qed.

(** A body without an incoming turn: the handler throws before its
    [try] block; nothing is read, written, called or answered. *)
Lemma chat_malformed (env : Env) (b : ChatBody) (t : Table) :
  incoming b = None ->
  chat_handler toLowerCase env b (start t)
  = (Thrown (type_error_reading
               (match messages b with None => "length" | Some _ => "content" end)),
     start t).
Proof.
  unfold incoming, chat_handler, last_incoming.
  destruct (messages b) as [ms|]; [intros ->|]; done.
Qed.

(** The history read fails: the catch block answers 500 and nothing
    is written or called. *)
Lemma chat_db_fault (env : Env) (b : ChatBody) (t : Table) (m : Incoming)
    (err : Error) :
  incoming b = Some m -> db_all_err env = Some err ->
  let limit :=
    (if is_summarize (toLowerCase (or_else (in_content m) "")) then 150 else 60)%nat in
  chat_handler toLowerCase env b (start t)
  = (Returned tt,
     mkWorld t
       (mkResponse 500 (Some "text/html; charset=utf-8") true
          [Text ("Nova Error: " +:+ message err)] true)
       [DbAll limit]).
Proof.
  intros Hm Hdb. apply incoming_Some in Hm as (ms & Hms & Hlast).
  unfold chat_handler, last_incoming. rewrite Hms, Hlast.
  unfold bind at 1. unfold ret at 1.
  unfold try_catch, chat_try, getGlobalHistoryFromDB. by rewrite Hdb.
Qed.

(** The three ways a request can go. *)
Lemma chat_cases (env : Env) (b : ChatBody) :
  incoming b = None
  \/ (exists m err, incoming b = Some m /\ db_all_err env = Some err)
  \/ (exists m, incoming b = Some m /\ db_all_err env = None).
Proof.
  destruct (incoming b) as [m|]; [|by left]. right.
  destruct (db_all_err env) as [err|]; [left|right]; eauto.
Qed.

End ChatRun.

(** * The chat route: persistence *)

Section ChatPersistence.

Import Js Store Server Spec.

Variable toLowerCase : string -> string.

(** How every well-formed request goes: the read, the insert of the
    user turn, then the one backend call, chosen by the model name. *)
Lemma chat_prefix (env : Env) (b : ChatBody) (t : Table) (m : Incoming) :
  incoming b = Some m -> db_all_err env = None ->
  let w' := (chat_handler toLowerCase env b (start t)).2 in
  let currentModel := or_else (model b) "gemini-1.5-flash" in
  let limit :=
    (if is_summarize (toLowerCase (or_else (in_content m) "")) then 150 else 60)%nat in
  let ev :=
    if includes currentModel "gemini" then
      GeminiChatCall
        (mkGeminiCall currentModel (ASSISTANT_PERSONA env)
           (map gemini_content (recent limit t))
           (TextPart (or_else (in_content m) " ") :: image_parts (in_image m)))
    else
      OllamaChatCall
        (mkOllamaRequest currentModel
           (map ollama_message (recent limit t)
            ++ [mkOllamaMessage "user" (in_content m)
                                (ollama_images (in_image m))])
           false) in
  exists later rows,
    calls w'
    = DbAll limit :: DbRun "user" (in_content m) (or_null (in_image m))
        :: ev :: later
    /\ Forall (fun e => is_backend_call e = false) later
    /\ db w' = t ++ user_row t m :: rows.
Proof.
  intros Hm Hdb w' currentModel limit ev. subst w' ev.
  pose proof (chat_run toLowerCase env b t m Hm Hdb) as H. cbv zeta in H.
  fold currentModel limit in H.
  set (run := chat_handler toLowerCase env b (start t)) in *.
  assert (forall rows, db run.2 = (t ++ [user_row t m]) ++ rows ->
            db run.2 = t ++ user_row t m :: rows) as Hrows.
  { intros rows ->. by rewrite <- app_assoc. }
  destruct (includes currentModel "gemini").
  - destruct (gemini_chat env _) as [e|stream].
    + destruct H as (_ & Hd & Hc & _).
      exists [], []. rewrite Hc.
      split; [done|split; [done|]]. apply Hrows. by rewrite app_nil_r.
    + destruct (stream_error stream).
      * destruct H as (Hd & Hc & _).
        exists [], []. rewrite Hc.
        split; [done|split; [done|]]. apply Hrows. by rewrite app_nil_r.
      * destruct H as (_ & Hd & Hc & _).
        eexists [_], [_]. rewrite Hc.
        split; [done|split; [by repeat constructor|]]. by apply Hrows.
  - destruct (ollama_chat env _) as [e|e| |text];
      destruct H as (_ & Hd & Hc & _).
    1-3: exists [], []; rewrite Hc;
         (split; [done|split; [done|]]); apply Hrows; by rewrite app_nil_r.
    eexists [_], [_]. rewrite Hc.
    split; [done|split; [by repeat constructor|]]. by apply Hrows.
Qed.

(** C1 (amended): a request that carries an incoming turn, served while
    the history read works, appends the user turn right after the read
    and before the backend call, which is the next thing it does;
    whatever the backend then answers, the final table holds that row
    right after the rows it had.  The row has role "user", the content
    as submitted, and as image the submitted image when that is a
    non-empty string and NULL when it is missing or empty. *)
Theorem user_turn_persisted_before_dispatch
    (env : Env) (b : ChatBody) (t : Table) (m : Incoming) :
  incoming b = Some m -> db_all_err env = None ->
  let w' := (chat_handler toLowerCase env b (start t)).2 in
  exists limit ev later rows,
    calls w'
    = DbAll limit :: DbRun "user" (in_content m) (or_null (in_image m))
        :: ev :: later
    /\ is_backend_call ev = true
    /\ db w' = t ++ user_row t m :: rows
    /\ In (user_row t m) (db w')
    /\ role (user_row t m) = "user"
    /\ content (user_row t m) = in_content m
    /\ image (user_row t m) = or_null (in_image m)
    /\ (forall img, in_image m = Some img -> img <> "" ->
          nth_error (calls w') 1 = Some (DbRun "user" (in_content m) (Some img))
          /\ In (mkRow (next_id t) "user" (in_content m) (Some img)) (db w'))
    /\ (in_image m = None \/ in_image m = Some "" ->
        nth_error (calls w') 1 = Some (DbRun "user" (in_content m) None)
        /\ In (mkRow (next_id t) "user" (in_content m) None) (db w')).
Proof.
  intros Hm Hdb w'.
  destruct (chat_prefix env b t m Hm Hdb) as (later & rows & Hc & _ & Hd).
  eexists _, _, later, rows. fold w' in Hc, Hd.
  assert (In (user_row t m) (db w')) as Hin
    by (rewrite Hd; apply in_or_app; right; by left).
  split; [exact Hc|]. split_and!; try done.
  - by destruct (includes _ "gemini").
  - intros img Him Hne. rewrite Hc. unfold user_row in Hin. rewrite Him in *.
    by destruct img.
  - intros Him. rewrite Hc. unfold user_row in Hin.
    by destruct Him as [Him|Him]; rewrite Him in *.
Qed.

(** C2: when the backend call of a request fails (the batch call
    rejects, answers something that is not JSON or carries no message;
    the streaming call rejects or its stream breaks before completion),
    the only row the request appends is the user turn: no assistant
    insert is issued and nothing of a partial stream reaches the
    table. *)
Theorem no_assistant_turn_on_backend_failure
    (env : Env) (b : ChatBody) (t : Table) :
  let w' := (chat_handler toLowerCase env b (start t)).2 in
  existsb (call_failed env) (calls w') = true ->
  (exists m, incoming b = Some m /\ db w' = t ++ [user_row t m])
  /\ (forall text img, ~ In (DbRun "assistant" text img) (calls w'))
  /\ Forall (fun r => role r <> "assistant") (drop (length t) (db w')).
Proof.
  intros w'. subst w'.
  destruct (chat_cases env b) as [Hn|[(m & err & Hm & Hdb)|(m & Hm & Hdb)]].
  - rewrite chat_malformed by done. done.
  - rewrite (chat_db_fault _ _ _ _ m err) by done. done.
  - pose proof (chat_run toLowerCase env b t m Hm Hdb) as H. cbv zeta in H.
    set (run := chat_handler toLowerCase env b (start t)) in *.
    assert (db run.2 = t ++ [user_row t m] ->
            forall ev, is_backend_call ev = true ->
              calls run.2
              = [DbAll (if is_summarize (toLowerCase (or_else (in_content m) ""))
                        then 150 else 60)%nat;
                 DbRun "user" (in_content m) (or_null (in_image m))] ++ [ev] ->
            (exists m0, incoming b = Some m0 /\ db run.2 = t ++ [user_row t m0])
            /\ (forall text img, ~ In (DbRun "assistant" text img) (calls run.2))
            /\ Forall (fun r => role r <> "assistant")
                      (drop (length t) (db run.2))) as Hfail.
    { intros Hd ev Hev Hc. split_and!; [eauto| |].
      - intros text img. rewrite Hc. simpl.
        intros [?|[?|[?|[]]]]; [done|congruence|by subst ev].
      - rewrite Hd, drop_app_length. by repeat constructor. }
    destruct (includes _ "gemini").
    + destruct (gemini_chat env _) as [e|stream] eqn:Hreply.
      * destruct H as (_ & Hd & Hc & _). intros _. eapply Hfail; [exact Hd|..]; [|exact Hc]; done.
      * destruct (stream_error stream) eqn:Herr.
        -- destruct H as (Hd & Hc & _). intros _. eapply Hfail; [exact Hd|..]; [|exact Hc]; done.
        -- destruct H as (_ & Hd & Hc & _). rewrite Hc. simpl.
           rewrite Hreply. simpl. by rewrite Herr.
    + destruct (ollama_chat env _) as [e|e| |text] eqn:Hreply;
        destruct H as (_ & Hd & Hc & _).
      1-3: intros _; eapply Hfail; [exact Hd|..]; [|exact Hc]; done.
      rewrite Hc. simpl. by rewrite Hreply.
Qed.

End ChatPersistence.

(** * The chat route: what the backends are sent and what comes back *)

Section ChatDispatch.

Import Js Store Server Spec.

Variable toLowerCase : string -> string.

(** The streaming call of a run, when it made one. *)
Lemma gemini_call_inv (env : Env) (b : ChatBody) (t : Table) (call : GeminiCall) :
  In (GeminiChatCall call) (calls (chat_handler toLowerCase env b (start t)).2) ->
  exists m,
    incoming b = Some m /\ db_all_err env = None
    /\ includes (or_else (model b) "gemini-1.5-flash") "gemini" = true
    /\ call
       = mkGeminiCall (or_else (model b) "gemini-1.5-flash")
           (ASSISTANT_PERSONA env)
           (map gemini_content
              (recent (if is_summarize (toLowerCase (or_else (in_content m) ""))
                       then 150 else 60)%nat t))
           (TextPart (or_else (in_content m) " ") :: image_parts (in_image m)).
Proof.
  destruct (chat_cases env b) as [Hn|[(m & err & Hm & Hdb)|(m & Hm & Hdb)]].
  - rewrite chat_malformed by done. done.
  - rewrite (chat_db_fault _ _ _ _ m err) by done. simpl. by intros [|[]].
  - pose proof (chat_run toLowerCase env b t m Hm Hdb) as H. cbv zeta in H.
    set (run := chat_handler toLowerCase env b (start t)) in *.
    intros Hin. exists m.
    destruct (includes _ "gemini").
    + assert (In (GeminiChatCall call)
                [GeminiChatCall
                   (mkGeminiCall (or_else (model b) "gemini-1.5-flash")
                      (ASSISTANT_PERSONA env)
                      (map gemini_content
                         (recent (if is_summarize
                                        (toLowerCase (or_else (in_content m) ""))
                                  then 150 else 60)%nat t))
                      (TextPart (or_else (in_content m) " ")
                         :: image_parts (in_image m)))]) as Hone.
      { destruct (gemini_chat env _) as [e|stream];
          [|destruct (stream_error stream)].
        - destruct H as (_ & _ & Hc & _). rewrite Hc in Hin. simpl in Hin.
          destruct Hin as [?|[?|Hin]]; [done|done|exact Hin].
        - destruct H as (_ & Hc & _). rewrite Hc in Hin. simpl in Hin.
          destruct Hin as [?|[?|Hin]]; [done|done|exact Hin].
        - destruct H as (_ & _ & Hc & _). rewrite Hc in Hin. simpl in Hin.
          destruct Hin as [?|[?|[?|[?|[]]]]]; [done|done|by left|done]. }
      destruct Hone as [Heq|[]]. by simplify_eq.
    + exfalso.
      destruct (ollama_chat env _); destruct H as (_ & _ & Hc & _);
        rewrite Hc in Hin; simpl in Hin; intuition discriminate.
Qed.

(** C3: in a run that reaches the streaming backend and gets a stream,
    the response body starts with the fragments the stream emitted, one
    write per fragment, in emission order; when the stream runs to
    completion nothing else is written and the assistant row appended
    after the user row has as content the concatenation of those
    fragments. *)
Theorem stream_forwarded_in_order_and_persisted
    (env : Env) (b : ChatBody) (t : Table) (call : GeminiCall) (stream : Stream) :
  let w' := (chat_handler toLowerCase env b (start t)).2 in
  In (GeminiChatCall call) (calls w') ->
  gemini_chat env call = SendStream stream ->
  exists m tail,
    incoming b = Some m
    /\ body (res w') = map Text (emitted stream) ++ tail
    /\ (stream_error stream = None ->
        tail = []
        /\ db w'
           = t ++ [user_row t m;
                   assistant_row (t ++ [user_row t m])
                                 (Some (join (emitted stream)))]).
Proof.
  intros w' Hin Hreply. subst w'.
  destruct (gemini_call_inv _ _ _ _ Hin) as (m & Hm & Hdb & Hg & Hcall).
  pose proof (chat_run toLowerCase env b t m Hm Hdb) as H. cbv zeta in H.
  rewrite Hg, <- Hcall, Hreply in H. exists m.
  destruct (stream_error stream) as [e|].
  - destruct H as (_ & _ & _ & H). destruct (emitted stream) as [|c l].
    + destruct H as (_ & _ & ->). by eexists.
    + destruct H as (_ & _ & ->). exists []. by rewrite app_nil_r.
  - destruct H as (_ & Hd & _ & _ & _ & Hb). exists [].
    rewrite Hb, app_nil_r, Hd, <- app_assoc. done.
Qed.

(** C10: in a run that reaches the streaming backend, the history sent
    is the window mapped turn by turn, and a turn of the window whose
    content is empty or absent goes out with the single text part
    [" "]; so does the incoming turn.  The table keeps its rows as they
    were and the row appended for the incoming turn holds the content
    as submitted. *)
Theorem empty_content_sent_as_space_stored_unchanged
    (env : Env) (b : ChatBody) (t : Table) (call : GeminiCall) :
  let w' := (chat_handler toLowerCase env b (start t)).2 in
  In (GeminiChatCall call) (calls w') ->
  exists m limit rows,
    incoming b = Some m
    /\ g_history call = map gemini_content (recent limit t)
    /\ (forall (i : nat) msg, recent limit t !! i = Some msg ->
          truthy (msg_content msg) = false ->
          exists c, g_history call !! i = Some c
                    /\ head (g_parts c) = Some (TextPart " "))
    /\ (truthy (in_content m) = false ->
        head (g_message call) = Some (TextPart " "))
    /\ db w' = t ++ user_row t m :: rows
    /\ content (user_row t m) = in_content m.
Proof.
  intros w' Hin. subst w'.
  destruct (gemini_call_inv _ _ _ _ Hin) as (m & Hm & Hdb & Hg & Hcall).
  destruct (chat_prefix toLowerCase env b t m Hm Hdb)
    as (_ & rows & _ & _ & Hrows).
  eexists m, _, rows. subst call. simpl. split_and!; try done.
  - intros i msg Hi Hc. exists (gemini_content msg). split.
    + by rewrite list_lookup_fmap, Hi.
    + simpl. by destruct (msg_content msg) as [[|??]|].
  - intros Hc. by destruct (in_content m) as [[|??]|].
Qed.

End ChatDispatch.

(** * The chat route: window, dispatch, malformed bodies *)

Section ChatWindow.

Import Js Store Server Spec.

Variable toLowerCase : string -> string.

Lemma recent_rows_In (limit : nat) (t : Table) (r : Row) :
  In r (recent_rows limit t) -> In r t.
Proof.
  rewrite <- !list_elem_of_In. unfold recent_rows, latest, order_by_id_asc,
    order_by_id_desc.
  rewrite merge_sort_Permutation. intros H%elem_of_take.
  destruct H as (i & H & _). apply list_elem_of_lookup_2 in H.
  by rewrite merge_sort_Permutation in H.
Qed.




(** C6: a request, taken alone, reads the window from the table as it
    was when the request arrived, then appends the incoming turn, then
    calls the backend with that window (the batch call adds the
    incoming message after it).  Every row of the window is a row the
    table already had, with an id below the one the incoming turn
    gets. *)
Theorem window_read_before_incoming_turn_appended
    (env : Env) (b : ChatBody) (t : Table) (m : Incoming) :
  incoming b = Some m -> db_all_err env = None ->
  let w' := (chat_handler toLowerCase env b (start t)).2 in
  exists limit ev later,
    calls w'
    = DbAll limit :: DbRun "user" (in_content m) (or_null (in_image m))
        :: ev :: later
    /\ is_backend_call ev = true
    /\ (forall call, ev = GeminiChatCall call ->
          g_history call = map gemini_content (recent limit t))
    /\ (forall req, ev = OllamaChatCall req ->
          o_messages req
          = map ollama_message (recent limit t)
            ++ [mkOllamaMessage "user" (in_content m)
                                (ollama_images (in_image m))])
    /\ recent limit t = map project (recent_rows limit t)
    /\ (forall r, In r (recent_rows limit t) ->
          In r t /\ id r < id (user_row t m) /\ r <> user_row t m).
Proof.
  intros Hm Hdb w'.
  destruct (chat_prefix toLowerCase env b t m Hm Hdb)
    as (later & rows & Hc & _ & _).
  fold w' in Hc. eexists _, _, later. split; [exact Hc|].
  split_and!.
  - by destruct (includes _ "gemini").
  - intros call. destruct (includes _ "gemini"); intros [= <-]; done.
  - intros req. destruct (includes _ "gemini"); intros [= <-]; done.
  - done.
  - intros r Hr%recent_rows_In.
    assert (id r < id (user_row t m)) as Hlt.
    { simpl. unfold next_id. apply list_elem_of_In, max_id_ge in Hr. lia. }
    split_and!; [done|done|]. intros ->. lia.
Qed.

End ChatWindow.

Section ChatRouting.

Import Js Store Server Spec.

Variable toLowerCase : string -> string.

(** C7 (amended): the backend is chosen by one substring test on the
    model name ([model], or "gemini-1.5-flash" when it is absent or
    empty): a name that contains "gemini" goes to the streaming
    backend, every other name goes to the batch backend with
    [stream: false]; exactly one backend call is made and no name is
    turned away. *)
Theorem backend_chosen_by_gemini_substring
    (env : Env) (b : ChatBody) (t : Table) (m : Incoming) :
  incoming b = Some m -> db_all_err env = None ->
  let w' := (chat_handler toLowerCase env b (start t)).2 in
  let currentModel := or_else (model b) "gemini-1.5-flash" in
  exists limit ev later,
    calls w'
    = DbAll limit :: DbRun "user" (in_content m) (or_null (in_image m))
        :: ev :: later
    /\ Forall (fun e => is_backend_call e = false) later
    /\ (includes currentModel "gemini" = true ->
        exists call, ev = GeminiChatCall call /\ g_model call = currentModel)
    /\ (includes currentModel "gemini" = false ->
        exists req,
          ev = OllamaChatCall req /\ o_model req = currentModel
          /\ o_stream req = false).
Proof.
  intros Hm Hdb w' currentModel.
  destruct (chat_prefix toLowerCase env b t m Hm Hdb)
    as (later & rows & Hc & Hl & _).
  fold w' currentModel in Hc. eexists _, _, later.
  split; [exact Hc|]. split; [done|].
  destruct (includes currentModel "gemini"); split; try done;
    intros _; by eexists.
Qed.

(** C9 (amended): when [messages] is absent or an empty sequence the
    handler throws a TypeError before it enters its [try] block: the
    error leaves the handler, no answer is produced (no status is set,
    nothing is written, the response is not ended), the table is as it
    was and no call is made. *)
Theorem missing_messages_throws_before_try
    (env : Env) (b : ChatBody) (t : Table) :
  messages b = None \/ messages b = Some [] ->
  let run := chat_handler toLowerCase env b (start t) in
  (exists e, run.1 = Thrown e)
  /\ run.2 = start t
  /\ answered (res run.2) = false
  /\ is_client_error (res run.2) = false.
Proof.
  intros Hb run. subst run. rewrite chat_malformed.
  - split_and!; try done. by eexists.
  - unfold incoming. by destruct Hb as [->| ->].
Qed.

End ChatRouting.

(** * The model catalog *)

Section ModelCatalog.

Import Js Store Server Spec.

Lemma bind_ret {A B} (a : A) (k : A -> M B) (w : World) :
  bind (ret a) k w = k a w.
Proof. reflexivity. Qed.

Lemma bind_throw {A B} (e : Error) (k : A -> M B) (w : World) :
  bind (throw e) k w = (Thrown e, w).
Proof. reflexivity. Qed.

Lemma bind_run {A B} (m : M A) (k : A -> M B) (w w1 : World) (o : Outcome A) :
  m w = (o, w1) ->
  bind m k w = match o with
               | Returned a => k a w1
               | Thrown e => (Thrown e, w1)
               end.
Proof. unfold bind. by intros ->. Qed.

Lemma filterM_run (models : list GeminiModelInfo) (w : World) :
  exists o,
    filterM is_gemini_generator models w = (o, w)
    /\ match cloud_filter models with
       | Some kept => o = Returned (map snd kept)
       | None => exists e, o = Thrown e
       end.
Proof.
  induction models as [|m models IH]; cbn [filterM cloud_filter].
  - by eexists.
  - destruct IH as (o & Hrun & Ho).
    unfold is_gemini_generator at 1.
    destruct (gm_name m) as [name|]; cbv beta iota;
      [|rewrite bind_throw; eexists; split; [done|by eexists]].
    assert (forall keep : bool,
              exists o',
                bind (ret keep)
                  (fun keep => bind (filterM is_gemini_generator models)
                     (fun rest => ret (if keep then m :: rest else rest))) w
                = (o', w)
                /\ match cloud_filter models with
                   | Some rest =>
                       o' = Returned (map snd (if keep then (name, m) :: rest
                                               else rest))
                   | None => exists e, o' = Thrown e
                   end) as Hkeep.
    { intros keep. rewrite bind_ret, (bind_run _ _ _ _ _ Hrun).
      destruct (cloud_filter models) as [rest|].
      - subst o. eexists; split; [done|]. by destruct keep.
      - destruct Ho as [e ->]. eexists; split; [done|]. by eexists. }
    destruct (includes name "gemini"); cbv beta iota.
    + destruct (gm_supportedGenerationMethods m) as [methods|]; cbv beta iota;
        [|rewrite bind_throw; eexists; split; [done|by eexists]].
      destruct (Hkeep (existsb (String.eqb "generateContent") methods))
        as (o' & -> & Ho').
      exists o'. split; [done|].
      by destruct (cloud_filter models), (existsb _ methods).
    + destruct (Hkeep false) as (o' & -> & Ho').
      exists o'. split; [done|]. by destruct (cloud_filter models).
Qed.

Lemma cloud_filter_named (models : list GeminiModelInfo)
    (kept : list (string * GeminiModelInfo)) :
  cloud_filter models = Some kept ->
  Forall (fun x => gm_name x.2 = Some x.1) kept.
Proof.
  revert kept; induction models as [|m models IH]; intros kept;
    cbn [cloud_filter].
  - by intros [= <-].
  - destruct (gm_name m) as [name|] eqn:Hn; [|done].
    destruct (cloud_filter models) as [rest|].
    + specialize (IH rest eq_refl).
      destruct (includes name "gemini");
        [destruct (gm_supportedGenerationMethods m) as [methods|];
           [destruct (existsb _ methods)|]|];
        intros [= <-]; try done; by constructor.
    + destruct (includes name "gemini");
        [destruct (gm_supportedGenerationMethods m) as [methods|];
           [destruct (existsb _ methods)|]|]; done.
Qed.

Lemma mapM_cloud_entry_run (kept : list (string * GeminiModelInfo)) (w : World) :
  Forall (fun x => gm_name x.2 = Some x.1) kept ->
  mapM cloud_entry (map snd kept) w = (Returned (map cloud_label kept), w).
Proof.
  induction 1 as [|x kept Hx _ IH]; [done|]. cbn [map mapM].
  unfold cloud_entry at 1. rewrite Hx. cbv beta iota.
  unfold bind at 1. unfold ret at 1. cbv beta iota.
  unfold bind at 1. by rewrite IH.
Qed.

(** The first [try] with its [catch]: the cloud source adds its
    entries, or nothing when it fails. *)
Lemma cloud_step (env : Env) (key : string) (w : World) :
  truthy (GOOGLE_API_KEY env) = true ->
  exists w',
    try_catch (cloud_models env key []) (fun _ => ret []) w
    = (Returned (default [] (cloud_source env)), w')
    /\ db w' = db w /\ res w' = res w.
Proof.
  intros Hkey. unfold cloud_source. rewrite Hkey.
  unfold try_catch, cloud_models, bind, log_call.
  destruct (gemini_models env) as [e|[models|]]; try by eexists.
  destruct (filterM_run models (mkWorld (db w) (res w) (calls w ++ [GeminiModelsCall key])))
    as (o & -> & Ho).
  pose proof (cloud_filter_named models) as Hnamed.
  destruct (cloud_filter models) as [kept|].
  - subst o. rewrite mapM_cloud_entry_run by by apply Hnamed.
    by eexists.
  - destruct Ho as [e ->]. by eexists.
Qed.

(** The second [try] with its [catch]: the local source adds its
    entries after the ones already there, or nothing. *)
Lemma local_step (env : Env) (allModels : list ModelEntry) (w : World) :
  exists w',
    try_catch (local_models env allModels) (fun _ => ret allModels) w
    = (Returned (allModels ++ default [] (local_source env)), w')
    /\ db w' = db w /\ res w' = res w.
Proof.
  unfold local_source, try_catch, local_models, bind, log_call, ret, throw.
  destruct (ollama_tags env) as [e| |e|[models|]]; simpl;
    rewrite ?app_nil_r; by eexists.
Qed.

(** C8: the listing never fails: it returns normally with status 200
    and one JSON array, the cloud entries first and the local entries
    second, where a source that is unavailable or fails gives no
    entries; the table is untouched.  With no cloud key and the local
    backend unreachable the array is empty. *)
Theorem models_listing_never_fails (env : Env) (t : Table) :
  let run := models_handler env (start t) in
  run.1 = Returned tt
  /\ db run.2 = t
  /\ res run.2
     = mkResponse 200 (Some "application/json; charset=utf-8") true
         [JsonModels (default [] (cloud_source env)
                      ++ default [] (local_source env))]
         true
  /\ (cloud_source env = None -> local_source env = None ->
      body (res run.2) = [JsonModels []])
  /\ (GOOGLE_API_KEY env = None -> cloud_source env = None)
  /\ (forall e, ollama_tags env = TagsFetchRejected e -> local_source env = None).
Proof.
  intros run.
  assert (exists c,
            run
            = (Returned tt,
               mkWorld t
                 (mkResponse 200 (Some "application/json; charset=utf-8") true
                    [JsonModels (default [] (cloud_source env)
                                 ++ default [] (local_source env))]
                    true)
                 c)) as [c Hrun].
  { subst run. unfold models_handler. unfold bind at 1.
    assert (exists w1,
              match GOOGLE_API_KEY env with
              | Some (String a k) =>
                  try_catch (cloud_models env (String a k) []) (fun _ => ret [])
              | _ => ret []
              end (start t)
              = (Returned (default [] (cloud_source env)), w1)
              /\ db w1 = t /\ res w1 = fresh_response) as (w1 & -> & Hd1 & Hr1).
    { destruct (GOOGLE_API_KEY env) as [[|a k]|] eqn:Hkey.
      - unfold cloud_source. rewrite Hkey. by eexists.
      - apply cloud_step. by rewrite Hkey.
      - unfold cloud_source. rewrite Hkey. by eexists. }
    unfold bind at 1.
    destruct (local_step env (default [] (cloud_source env)) w1)
      as (w2 & -> & Hd2 & Hr2).
    unfold res_json, bind, get_res, update_res.
    rewrite Hr2, Hr1. simpl. rewrite Hr2, Hr1, Hd2, Hd1. by eexists. }
  rewrite Hrun. simpl. split_and!; try done.
  - intros Hc Hl. by rewrite Hc, Hl.
  - intros Hk. unfold cloud_source. by rewrite Hk.
  - intros e He. unfold local_source. by rewrite He.
Qed.

End ModelCatalog.

(** * Concrete runs *)

Section ConcreteRuns.

Import Js Store Server Spec Sample.

Lemma user_turn_persisted_on_broken_stream :
  incoming body_photo = Some photo_turn
  /\ db_all_err env_down = None
  /\ db (chat_handler lower_utf8 env_down body_photo (start table_two)).2
     = table_two ++ [mkRow 3 "user" (Some "vad ser du?") (Some "aGVq")]
  /\ exists limit ev later rows,
       calls (chat_handler lower_utf8 env_down body_photo (start table_two)).2
       = DbAll limit
           :: DbRun "user" (in_content photo_turn) (or_null (in_image photo_turn))
           :: ev :: later
       /\ is_backend_call ev = true
       /\ db (chat_handler lower_utf8 env_down body_photo (start table_two)).2
          = table_two ++ user_row table_two photo_turn :: rows
       /\ In (user_row table_two photo_turn)
             (db (chat_handler lower_utf8 env_down body_photo (start table_two)).2)
       /\ role (user_row table_two photo_turn) = "user"
       /\ content (user_row table_two photo_turn) = in_content photo_turn
       /\ image (user_row table_two photo_turn) = or_null (in_image photo_turn)
       /\ (forall img, in_image photo_turn = Some img -> img <> "" ->
             nth_error
               (calls (chat_handler lower_utf8 env_down body_photo
                         (start table_two)).2) 1
             = Some (DbRun "user" (in_content photo_turn) (Some img))
             /\ In (mkRow (next_id table_two) "user" (in_content photo_turn)
                           (Some img))
                   (db (chat_handler lower_utf8 env_down body_photo
                          (start table_two)).2))
       /\ (in_image photo_turn = None \/ in_image photo_turn = Some "" ->
           nth_error
             (calls (chat_handler lower_utf8 env_down body_photo
                       (start table_two)).2) 1
           = Some (DbRun "user" (in_content photo_turn) None)
           /\ In (mkRow (next_id table_two) "user" (in_content photo_turn) None)
                 (db (chat_handler lower_utf8 env_down body_photo
                        (start table_two)).2)).
Proof.
  split; [reflexivity|]. split; [reflexivity|]. split; [reflexivity|].
  exact (user_turn_persisted_before_dispatch lower_utf8 env_down body_photo
           table_two photo_turn eq_refl eq_refl).
Defined.

(** When the history read fails the request is over before the insert:
    the answer is 500, the one call made is the read, and the table
    holds the two old turns and not the incoming one. *)
Lemma user_turn_lost_when_history_read_fails :
  incoming body_photo = Some photo_turn
  /\ chat_handler lower_utf8 env_read_fault body_photo (start table_two)
     = (Returned tt,
        mkWorld table_two
          (mkResponse 500 (Some "text/html; charset=utf-8") true
             [Text "Nova Error: SQLITE_IOERR: disk I/O error"] true)
          [DbAll 60])
  /\ map content
       (db (chat_handler lower_utf8 env_read_fault body_photo (start table_two)).2)
     = [Some "hej"; Some "hej själv"].
Proof. vm_compute. by split_and!. Qed.

Lemma no_assistant_turn_on_broken_stream :
  existsb (call_failed env_down)
    (calls (chat_handler lower_utf8 env_down body_recall (start table_two)).2)
  = true
  /\ (exists m,
        incoming body_recall = Some m
        /\ db (chat_handler lower_utf8 env_down body_recall (start table_two)).2
           = table_two ++ [user_row table_two m])
  /\ (forall text img,
        ~ In (DbRun "assistant" text img)
             (calls (chat_handler lower_utf8 env_down body_recall
                       (start table_two)).2))
  /\ Forall (fun r => role r <> "assistant")
        (drop (length table_two)
           (db (chat_handler lower_utf8 env_down body_recall (start table_two)).2)).
Proof.
  split; [reflexivity|].
  exact (no_assistant_turn_on_backend_failure lower_utf8 env_down body_recall
           table_two eq_refl).
Defined.

Lemma complete_stream_forwarded_and_persisted :
  In (GeminiChatCall recall_call)
     (calls (chat_handler lower_utf8 env_up body_recall (start table_two)).2)
  /\ gemini_chat env_up recall_call
     = SendStream (StreamChunk "Hej" (StreamChunk " du" StreamEnd))
  /\ exists m tail,
       incoming body_recall = Some m
       /\ body (res (chat_handler lower_utf8 env_up body_recall (start table_two)).2)
          = map Text (emitted (StreamChunk "Hej" (StreamChunk " du" StreamEnd)))
            ++ tail
       /\ (stream_error (StreamChunk "Hej" (StreamChunk " du" StreamEnd)) = None ->
           tail = []
           /\ db (chat_handler lower_utf8 env_up body_recall (start table_two)).2
              = table_two
                ++ [user_row table_two m;
                    assistant_row (table_two ++ [user_row table_two m])
                      (Some (join (emitted
                         (StreamChunk "Hej" (StreamChunk " du" StreamEnd)))))]).
Proof.
  assert (In (GeminiChatCall recall_call)
            (calls (chat_handler lower_utf8 env_up body_recall (start table_two)).2))
    as Hin by (right; right; left; reflexivity).
  split; [exact Hin|]. split; [reflexivity|].
  exact (stream_forwarded_in_order_and_persisted lower_utf8 env_up body_recall
           table_two recall_call _ Hin eq_refl).
Defined.


Lemma window_of_recall_request_is_prior_table :
  incoming body_recall = Some recall_turn
  /\ db_all_err env_up = None
  /\ exists limit ev later,
       calls (chat_handler lower_utf8 env_up body_recall (start table_two)).2
       = DbAll limit
           :: DbRun "user" (in_content recall_turn) (or_null (in_image recall_turn))
           :: ev :: later
       /\ is_backend_call ev = true
       /\ (forall call, ev = GeminiChatCall call ->
             g_history call = map gemini_content (recent limit table_two))
       /\ (forall req, ev = OllamaChatCall req ->
             o_messages req
             = map ollama_message (recent limit table_two)
               ++ [mkOllamaMessage "user" (in_content recall_turn)
                                   (ollama_images (in_image recall_turn))])
       /\ recent limit table_two = map project (recent_rows limit table_two)
       /\ (forall r, In r (recent_rows limit table_two) ->
             In r table_two /\ id r < id (user_row table_two recall_turn)
             /\ r <> user_row table_two recall_turn).
Proof.
  split; [reflexivity|]. split; [reflexivity|].
  exact (window_read_before_incoming_turn_appended lower_utf8 env_up body_recall
           table_two recall_turn eq_refl eq_refl).
Defined.

Lemma unknown_model_dispatched_to_batch :
  incoming body_unknown = Some blank_turn
  /\ db_all_err env_up = None
  /\ exists limit ev later,
       calls (chat_handler lower_utf8 env_up body_unknown (start table_two)).2
       = DbAll limit
           :: DbRun "user" (in_content blank_turn) (or_null (in_image blank_turn))
           :: ev :: later
       /\ Forall (fun e => is_backend_call e = false) later
       /\ (includes (or_else (model body_unknown) "gemini-1.5-flash") "gemini" = true ->
           exists call,
             ev = GeminiChatCall call
             /\ g_model call = or_else (model body_unknown) "gemini-1.5-flash")
       /\ (includes (or_else (model body_unknown) "gemini-1.5-flash") "gemini" = false ->
           exists req,
             ev = OllamaChatCall req
             /\ o_model req = or_else (model body_unknown) "gemini-1.5-flash"
             /\ o_stream req = false).
Proof.
  split; [reflexivity|]. split; [reflexivity|].
  exact (backend_chosen_by_gemini_substring lower_utf8 env_up body_unknown
           table_two blank_turn eq_refl eq_refl).
Defined.

(** A model name of neither family is not turned away: the request,
    image included, goes to the batch backend and is answered 200. *)
Lemma unknown_model_not_rejected :
  (chat_handler lower_utf8 env_up body_unknown (start table_two)).1 = Returned tt
  /\ calls (chat_handler lower_utf8 env_up body_unknown (start table_two)).2
     = [DbAll 60; DbRun "user" (Some "") (Some "aGVq");
        OllamaChatCall
          (mkOllamaRequest "no-such-family"
             [mkOllamaMessage "user" (Some "hej") None;
              mkOllamaMessage "assistant" (Some "hej själv") None;
              mkOllamaMessage "user" (Some "") (Some ["aGVq"])]
             false);
        DbRun "assistant" (Some "hej!") None]
  /\ res (chat_handler lower_utf8 env_up body_unknown (start table_two)).2
     = mkResponse 200 (Some "text/html; charset=utf-8") true [Text "hej!"] true.
Proof. vm_compute. by split_and!. Qed.

Lemma empty_messages_throw_unanswered :
  (messages body_empty = None \/ messages body_empty = Some [])
  /\ (exists e,
        (chat_handler lower_utf8 env_up body_empty (start table_two)).1 = Thrown e)
  /\ (chat_handler lower_utf8 env_up body_empty (start table_two)).2
     = start table_two
  /\ answered (res (chat_handler lower_utf8 env_up body_empty (start table_two)).2)
     = false
  /\ is_client_error
       (res (chat_handler lower_utf8 env_up body_empty (start table_two)).2)
     = false.
Proof.
  split; [right; reflexivity|].
  exact (missing_messages_throws_before_try lower_utf8 env_up body_empty table_two
           (or_intror eq_refl)).
Defined.

(** Bodies with an empty or an absent [messages] are not answered with
    a client error: the handler throws and the response stays as it
    was created. *)
Lemma missing_messages_not_a_client_error :
  chat_handler lower_utf8 env_up body_empty (start table_two)
  = (Thrown (type_error_reading "content"), start table_two)
  /\ chat_handler lower_utf8 env_up body_absent (start table_two)
     = (Thrown (type_error_reading "length"), start table_two)
  /\ is_client_error (res (start table_two)) = false
  /\ answered (res (start table_two)) = false.
Proof. vm_compute. by split_and!. Qed.

Lemma blank_content_sent_as_space :
  In (GeminiChatCall blank_call)
     (calls (chat_handler lower_utf8 env_up body_blank (start table_two)).2)
  /\ exists m limit rows,
       incoming body_blank = Some m
       /\ g_history blank_call = map gemini_content (recent limit table_two)
       /\ (forall (i : nat) msg, recent limit table_two !! i = Some msg ->
             truthy (msg_content msg) = false ->
             exists c, g_history blank_call !! i = Some c
                       /\ head (g_parts c) = Some (TextPart " "))
       /\ (truthy (in_content m) = false ->
           head (g_message blank_call) = Some (TextPart " "))
       /\ db (chat_handler lower_utf8 env_up body_blank (start table_two)).2
          = table_two ++ user_row table_two m :: rows
       /\ content (user_row table_two m) = in_content m.
Proof.
  assert (In (GeminiChatCall blank_call)
            (calls (chat_handler lower_utf8 env_up body_blank (start table_two)).2))
    as Hin by (right; right; left; reflexivity).
  split; [exact Hin|].
  exact (empty_content_sent_as_space_stored_unchanged lower_utf8 env_up body_blank
           table_two blank_call Hin).
Defined.

(** The listing with a cloud key and both sources answering, and with
    neither. *)
Example models_listing_both_up :
  body (res (models_handler env_up (start table_two)).2)
  = [JsonModels
       [mkModelEntry (Some "gemini-1.5-flash") "☁️ Gemini 1.5 Flash";
        mkModelEntry (Some "llama3") "🏠 Ollama: llama3"]].
Proof. reflexivity. Qed.

Example models_listing_both_down :
  models_handler env_down (start table_two)
  = (Returned tt,
     mkWorld table_two
       (mkResponse 200 (Some "application/json; charset=utf-8") true
          [JsonModels []] true)
       [OllamaTagsCall]).
Proof. reflexivity. Qed.

Example recent_hej :
  recent 60 table_two
  = [mkMsg "user" (Some "hej") None; mkMsg "assistant" (Some "hej själv") None].
Proof. reflexivity. Qed.

(** The recall request reads 150 turns, also when written in capitals. *)
Example sammanfatta_reads_150 :
  head (calls (chat_handler lower_utf8 env_up body_recall (start table_two)).2)
  = Some (DbAll 150)
  /\ head (calls (chat_handler lower_utf8 env_up
                    (mkChatBody
                       (Some [mkIncoming None (Some "Kan du SAMMANFATTA vÅrt samtal?")
                                         None])
                       None)
                    (start table_two)).2)
     = Some (DbAll 150)
  /\ head (calls (chat_handler lower_utf8 env_up body_unknown (start table_two)).2)
     = Some (DbAll 60).
Proof. by vm_compute. Qed.

(** The stream breaks after "Hel": the caller has "Hel", the table has
    the user turn and no assistant turn. *)
Example broken_stream_after_Hel :
  body (res (chat_handler lower_utf8 env_down body_recall (start table_two)).2)
  = [Text "Hel"]
  /\ map role (db (chat_handler lower_utf8 env_down body_recall (start table_two)).2)
     = ["user"; "assistant"; "user"].
Proof. by vm_compute. Qed.

End ConcreteRuns.

(** * More on the table: inserts and the query on any table *)

Section StoreCover.

Import Js Store Server Spec Cover.

#[local] Instance id_le_trans' : Transitive id_le.
Proof. intros x y z; unfold id_le; lia. Qed.
#[local] Instance id_ge_trans' : Transitive id_ge.
Proof. intros x y z; unfold id_ge; lia. Qed.
#[local] Instance id_le_total' : Total id_le.
Proof. intros x y; unfold id_le; lia. Qed.
#[local] Instance id_ge_total' : Total id_ge.
Proof. intros x y; unfold id_ge; lia. Qed.

(** X2: on a table whose ids increase in insertion order, the read that
    follows a [saveToDB] ends with the turn just saved, after the last
    149 (or 59) turns that were there. *)
Theorem read_after_save_ends_with_saved_turn
    (env : Env) (fetchMore : bool) (ro : string) (c im : option string)
    (w : World) :
  ascending (db w) -> db_all_err env = None ->
  let limit := (if fetchMore then 150 else 60)%nat in
  (getGlobalHistoryFromDB env fetchMore (saveToDB ro c im w).2).1
  = Returned (drop (length (db w) + 1 - limit) (map project (db w))
              ++ [mkMsg ro c im]).
Proof.
  intros Ht Hdb limit.
  unfold getGlobalHistoryFromDB, bind, log_call. rewrite Hdb. simpl.
  fold limit. f_equal. unfold recent.
  rewrite recent_rows_ascending by by apply ascending_insert.
  unfold insert. rewrite length_app. simpl length.
  rewrite drop_app_le by (subst limit; destruct fetchMore; lia).
  by rewrite map_app, <- skipn_map.
Qed.

Lemma Sorted_ge_tail_le (d : list Row) (k : nat) (r r' : Row) :
  Sorted id_ge d -> r ∈ take k d -> r' ∈ drop k d -> id r' <= id r.
Proof.
  intros Hs%Sorted_StronglySorted Hr Hr'; [|apply _].
  rewrite <- (take_drop k d) in Hs.
  apply StronglySorted_app in Hs as (H & _ & _).
  exact (H r r' Hr Hr').
Qed.

(** X3: on any table the history query returns rows of the table,
    sorted by ascending id, as many as the limit allows; a row of the
    table that is left out has an id no greater than any row returned,
    and a table within the limit comes back whole. *)
Theorem history_query_returns_top_ids_ascending (limit : nat) (t : Table) :
  Sorted id_le (recent_rows limit t)
  /\ length (recent_rows limit t) = Nat.min limit (length t)
  /\ (forall r, In r (recent_rows limit t) -> In r t)
  /\ (forall r r', In r (recent_rows limit t) -> In r' t ->
        ~ In r' (recent_rows limit t) -> id r' <= id r)
  /\ ((length t <= limit)%nat -> recent_rows limit t ≡ₚ t).
Proof.
  assert (recent_rows limit t ≡ₚ take limit (order_by_id_desc t)) as Hp
    by apply merge_sort_Permutation.
  assert (order_by_id_desc t ≡ₚ t) as Hd by apply merge_sort_Permutation.
  split_and!.
  - apply Sorted_merge_sort; apply _.
  - by rewrite Hp, length_take, Hd.
  - intros r. rewrite <- !list_elem_of_In, Hp. intros H.
    rewrite <- Hd. by apply (subseteq_take limit).
  - intros r r'. rewrite <- !list_elem_of_In, !Hp. intros Hr Hr' Hn.
    apply (Sorted_ge_tail_le (order_by_id_desc t) limit); [|done|].
    + apply Sorted_merge_sort; apply _.
    + rewrite <- Hd, <- (take_drop limit (order_by_id_desc t)) in Hr'.
      apply elem_of_app in Hr' as [|]; done.
  - intros Hl. rewrite Hp, take_ge by by rewrite Hd. done.
Qed.

End StoreCover.

(** * More on the chat route: outcomes, payloads, successive requests *)

Section ChatCover.

Import Js Store Server Spec Cover.

Variable toLowerCase : string -> string.

(** The batch call of a run, when it made one. *)
Lemma ollama_call_inv (env : Env) (b : ChatBody) (t : Table) (req : OllamaRequest) :
  In (OllamaChatCall req) (calls (chat_handler toLowerCase env b (start t)).2) ->
  exists m,
    incoming b = Some m /\ db_all_err env = None
    /\ includes (or_else (model b) "gemini-1.5-flash") "gemini" = false
    /\ req
       = mkOllamaRequest (or_else (model b) "gemini-1.5-flash")
           (map ollama_message
              (recent (if is_summarize (toLowerCase (or_else (in_content m) ""))
                       then 150 else 60)%nat t)
            ++ [mkOllamaMessage "user" (in_content m) (ollama_images (in_image m))])
           false.
Proof.
  destruct (chat_cases env b) as [Hn|[(m & err & Hm & Hdb)|(m & Hm & Hdb)]].
  - rewrite chat_malformed by done. done.
  - rewrite (chat_db_fault _ _ _ _ m err) by done. simpl. by intros [|[]].
  - destruct (chat_prefix toLowerCase env b t m Hm Hdb)
      as (later & rows & Hc & Hl & _).
    rewrite Hc. intros Hin. exists m.
    destruct (includes _ "gemini").
    + exfalso. simpl in Hin. destruct Hin as [?|[?|[?|Hin]]]; try done.
      rewrite Forall_forall in Hl. apply list_elem_of_In, Hl in Hin. done.
    + simpl in Hin. destruct Hin as [?|[?|[Heq|Hin]]]; try done.
      * by simplify_eq.
      * rewrite Forall_forall in Hl. apply list_elem_of_In, Hl in Hin. done.
Qed.

(** The batch branch, with the error the catch block reports. *)
Lemma ollama_run (env : Env) (b : ChatBody) (t : Table) (m : Incoming) :
  incoming b = Some m -> db_all_err env = None ->
  includes (or_else (model b) "gemini-1.5-flash") "gemini" = false ->
  let limit :=
    (if is_summarize (toLowerCase (or_else (in_content m) "")) then 150 else 60)%nat in
  let req :=
    mkOllamaRequest (or_else (model b) "gemini-1.5-flash")
      (map ollama_message (recent limit t)
       ++ [mkOllamaMessage "user" (in_content m) (ollama_images (in_image m))])
      false in
  let t1 := t ++ [user_row t m] in
  let pre := [DbAll limit; DbRun "user" (in_content m) (or_null (in_image m))] in
  chat_handler toLowerCase env b (start t)
  = match ollama_chat env req with
    | ChatMessage text =>
        (Returned tt,
         mkWorld (t1 ++ [assistant_row t1 text])
           (match text with
            | Some s =>
                mkResponse 200 (Some "text/html; charset=utf-8") true [Text s] true
            | None => mkResponse 200 None true [] true
            end)
           (pre ++ [OllamaChatCall req; DbRun "assistant" text None]))
    | reply =>
        (Returned tt,
         mkWorld t1
           (mkResponse 500 (Some "text/html; charset=utf-8") true
              [Text ("Nova Error: "
                     +:+ message (default (mkError "") (ollama_error reply)))]
              true)
           (pre ++ [OllamaChatCall req]))
    end.
Proof.
  intros Hm Hdb Hg. apply incoming_Some in Hm as (ms & Hms & Hlast).
  intros limit req t1 pre.
  unfold chat_handler, last_incoming. rewrite Hms, Hlast.
  unfold bind at 1. unfold ret at 1.
  unfold try_catch, chat_try, getGlobalHistoryFromDB.
  fold limit. rewrite Hdb, Hg. simpl negb. cbv iota.
  unfold ollama_branch. subst t1 pre req. unfold assistant_row, user_row.
  unfold bind, log_call, saveToDB, start, throw, ret, insert; simpl.
  destruct (ollama_chat env _) as [e|e| |[s|]]; reflexivity.
Qed.

(** X4: when the history read fails, the request is answered 500 with
    "Nova Error: " and the error's message; the incoming turn is not
    stored, the table is as it was, and no backend is called. *)
Theorem history_read_fault_loses_the_turn
    (env : Env) (b : ChatBody) (t : Table) (m : Incoming) (err : Error) :
  incoming b = Some m -> db_all_err env = Some err ->
  let run := chat_handler toLowerCase env b (start t) in
  run.1 = Returned tt
  /\ db run.2 = t
  /\ statusCode (res run.2) = 500
  /\ finished (res run.2) = true
  /\ body (res run.2) = [Text ("Nova Error: " +:+ message err)]
  /\ Forall (fun ev => is_backend_call ev = false) (calls run.2)
  /\ (forall ro c im, ~ In (DbRun ro c im) (calls run.2)).
Proof.
  intros Hm Hdb run. subst run.
  rewrite (chat_db_fault _ _ _ _ m err) by done. simpl.
  split_and!; try done.
  - by repeat constructor.
  - intros ro c im [?|[]]. done.
Qed.


(** X6: a backend failure that comes before anything was written to
    the caller (any failure of the batch call, a rejected streaming
    call, a stream breaking before its first fragment) is answered with
    status 500 and the one body "Nova Error: " followed by the error's
    message, and the response is ended. *)
Theorem early_backend_failure_answered_500
    (env : Env) (b : ChatBody) (t : Table) (ev : Event) (e : Error) :
  let run := chat_handler toLowerCase env b (start t) in
  In ev (calls run.2) ->
  early_error env ev = Some e ->
  run.1 = Returned tt
  /\ statusCode (res run.2) = 500
  /\ finished (res run.2) = true
  /\ body (res run.2) = [Text ("Nova Error: " +:+ message e)].
Proof.
  intros run Hin He. subst run. destruct ev as [| |req|call| |]; try done.
  - destruct (ollama_call_inv _ _ _ _ Hin) as (m & Hm & Hdb & Hg & Hreq).
    pose proof (ollama_run env b t m Hm Hdb Hg) as H. cbv zeta in H.
    rewrite <- Hreq in H. rewrite H. simpl in He.
    destruct (ollama_chat env req); simplify_eq/=; done.
  - destruct (gemini_call_inv _ _ _ _ _ Hin) as (m & Hm & Hdb & Hg & Hcall).
    pose proof (chat_run toLowerCase env b t m Hm Hdb) as H. cbv zeta in H.
    rewrite Hg, <- Hcall in H. simpl in He.
    destruct (gemini_chat env call) as [e'|stream].
    + simplify_eq. by destruct H as (? & _ & _ & ? & ? & ?).
    + destruct (emitted stream); [|done]. rewrite He in H.
      by destruct H as (_ & _ & ? & ? & ? & ?).
Qed.

(** X7: when the stream breaks after at least one fragment went out,
    the [catch] block cannot send its error: [res.send] throws because
    the head is already sent, the handler ends with that error, and the
    response is left open holding exactly the fragments forwarded; the
    table holds the user turn and nothing of the partial answer. *)
Theorem broken_stream_leaves_response_open
    (env : Env) (b : ChatBody) (t : Table) (call : GeminiCall)
    (stream : Stream) (e : Error) :
  let run := chat_handler toLowerCase env b (start t) in
  In (GeminiChatCall call) (calls run.2) ->
  gemini_chat env call = SendStream stream ->
  stream_error stream = Some e ->
  emitted stream <> [] ->
  run.1 = Thrown headers_sent_error
  /\ finished (res run.2) = false
  /\ body (res run.2) = map Text (emitted stream)
  /\ exists m, incoming b = Some m /\ db run.2 = t ++ [user_row t m].
Proof.
  intros run Hin Hreply Herr Hne. subst run.
  destruct (gemini_call_inv _ _ _ _ _ Hin) as (m & Hm & Hdb & Hg & Hcall).
  pose proof (chat_run toLowerCase env b t m Hm Hdb) as H. cbv zeta in H.
  rewrite Hg, <- Hcall, Hreply, Herr in H.
  destruct H as (Hd & _ & _ & H). destruct (emitted stream); [done|].
  destruct H as (? & ? & ?). split_and!; eauto.
Qed.

Lemma gemini_content_shape (msg : Msg) :
  (g_role (gemini_content msg) = "user" \/ g_role (gemini_content msg) = "model")
  /\ (g_role (gemini_content msg) = "model" <-> msg_role msg = "assistant")
  /\ text_then_image (g_parts (gemini_content msg)) = true
  /\ (length (g_parts (gemini_content msg)) = 2%nat
      <-> truthy (msg_image msg) = true).
Proof.
  unfold gemini_content. simpl g_role. simpl g_parts.
  destruct (String.eqb_spec (msg_role msg) "assistant") as [Hr|Hr].
  - split_and!; [by right|done| |];
      destruct (msg_content msg) as [[|??]|], (msg_image msg) as [[|??]|]; done.
  - split_and!; [by left|split; [done|by intros ?]| |];
      destruct (msg_content msg) as [[|??]|], (msg_image msg) as [[|??]|]; done.
Qed.

(** X8: what the streaming backend is sent: the model name (the default
    when none is given), the persona as system instruction, and one
    content per turn of the window, in order.  Every role is "user" or
    "model", "model" exactly for the stored role "assistant"; every
    content, and the message itself, is a non-empty text part followed
    by one inline image/jpeg part exactly when the turn has a non-empty
    image. *)
Theorem gemini_payload_shape
    (env : Env) (b : ChatBody) (t : Table) (call : GeminiCall) :
  let run := chat_handler toLowerCase env b (start t) in
  In (GeminiChatCall call) (calls run.2) ->
  g_model call = or_else (model b) "gemini-1.5-flash"
  /\ g_systemInstruction call = ASSISTANT_PERSONA env
  /\ text_then_image (g_message call) = true
  /\ Forall (fun c => (g_role c = "user" \/ g_role c = "model")
                      /\ text_then_image (g_parts c) = true)
            (g_history call)
  /\ exists m limit,
       incoming b = Some m
       /\ (length (g_message call) = 2%nat <-> truthy (in_image m) = true)
       /\ length (g_history call) = length (recent limit t)
       /\ forall (i : nat) msg c,
            recent limit t !! i = Some msg -> g_history call !! i = Some c ->
            (g_role c = "model" <-> msg_role msg = "assistant")
            /\ (length (g_parts c) = 2%nat <-> truthy (msg_image msg) = true).
Proof.
  intros run Hin. subst run.
  destruct (gemini_call_inv _ _ _ _ _ Hin) as (m & Hm & Hdb & Hg & Hcall).
  subst call. simpl. split_and!; try done.
  - by destruct (in_content m) as [[|??]|], (in_image m) as [[|??]|].
  - apply Forall_fmap, Forall_forall. intros msg _.
    destruct (gemini_content_shape msg) as (? & _ & ? & _). done.
  - exists m, (if is_summarize (toLowerCase (or_else (in_content m) ""))
               then 150 else 60)%nat.
    split_and!; [done| |by rewrite length_map|].
    + by destruct (in_image m) as [[|??]|].
    + intros i msg c Hi. rewrite list_lookup_fmap, Hi. intros [= <-].
      destruct (gemini_content_shape msg) as (_ & ? & _ & ?). done.
Qed.

(** X9: what the batch backend is sent: the model name as given,
    [stream: false], and one message per turn of the window, in order,
    with the stored role and the stored content as they are (an empty
    or missing content is not replaced); [images] is the one-element
    list of the image when the turn has a non-empty one and is left out
    otherwise.  The incoming message comes last, with role "user". *)
Theorem ollama_payload_verbatim
    (env : Env) (b : ChatBody) (t : Table) (req : OllamaRequest) :
  let run := chat_handler toLowerCase env b (start t) in
  In (OllamaChatCall req) (calls run.2) ->
  exists m limit,
    incoming b = Some m
    /\ o_model req = or_else (model b) "gemini-1.5-flash"
    /\ o_stream req = false
    /\ length (o_messages req) = S (length (recent limit t))
    /\ last (o_messages req)
       = Some (mkOllamaMessage "user" (in_content m)
                 (if truthy (in_image m) then (fun s => [s]) <$> in_image m
                  else None))
    /\ forall (i : nat) msg,
         recent limit t !! i = Some msg ->
         o_messages req !! i
         = Some (mkOllamaMessage (msg_role msg) (msg_content msg)
                   (if truthy (msg_image msg) then (fun s => [s]) <$> msg_image msg
                    else None)).
Proof.
  intros run Hin. subst run.
  destruct (ollama_call_inv _ _ _ _ Hin) as (m & Hm & Hdb & Hg & Hreq).
  assert (forall im : option string,
            ollama_images im
            = if truthy im then (fun s => [s]) <$> im else None) as Him
    by by intros [[|??]|].
  subst req. simpl.
  exists m, (if is_summarize (toLowerCase (or_else (in_content m) ""))
             then 150 else 60)%nat.
  split_and!; try done.
  - rewrite length_app, length_map. simpl. lia.
  - by rewrite last_snoc, Him.
  - intros i msg Hi.
    rewrite lookup_app_l by (rewrite length_map; by eapply lookup_lt_Some).
    rewrite list_lookup_fmap, Hi. simpl. unfold ollama_message. by rewrite Him.
Qed.

(** X10: a request without [model], or with the empty string as
    [model], goes to the streaming backend under the model name
    "gemini-1.5-flash". *)
Theorem missing_model_defaults_to_gemini_flash
    (env : Env) (b : ChatBody) (t : Table) (m : Incoming) :
  incoming b = Some m -> db_all_err env = None ->
  truthy (model b) = false ->
  let run := chat_handler toLowerCase env b (start t) in
  exists limit call later,
    calls run.2
    = DbAll limit :: DbRun "user" (in_content m) (or_null (in_image m))
        :: GeminiChatCall call :: later
    /\ g_model call = "gemini-1.5-flash".
Proof.
  intros Hm Hdb Hmodel run. subst run.
  destruct (chat_prefix toLowerCase env b t m Hm Hdb)
    as (later & rows & Hc & _ & _).
  assert (or_else (model b) "gemini-1.5-flash" = "gemini-1.5-flash") as Hdef
    by by destruct (model b) as [[|??]|].
  rewrite Hdef in Hc. change (includes "gemini-1.5-flash" "gemini") with true in Hc.
  rewrite Hc. by eexists _, _, later.
Qed.

(** The two ends of a well-formed request served with a working read. *)
Lemma chat_outcome (env : Env) (b : ChatBody) (t : Table) (m : Incoming) :
  incoming b = Some m -> db_all_err env = None ->
  let run := chat_handler toLowerCase env b (start t) in
  let t1 := t ++ [user_row t m] in
  (db run.2 = t1
   /\ statusCode (res run.2) = 500
   /\ existsb (call_failed env) (calls run.2) = true)
  \/ (exists text,
        db run.2 = t1 ++ [assistant_row t1 text]
        /\ statusCode (res run.2) = 200
        /\ finished (res run.2) = true
        /\ run.1 = Returned tt
        /\ existsb (call_failed env) (calls run.2) = false).
Proof.
  intros Hm Hdb run t1. subst run t1.
  pose proof (chat_run toLowerCase env b t m Hm Hdb) as H. cbv zeta in H.
  destruct (includes _ "gemini").
  - destruct (gemini_chat env _) as [e|stream] eqn:Hreply.
    + destruct H as (_ & Hd & Hc & Hs & _). left. rewrite Hc. simpl.
      by rewrite Hreply.
    + destruct (stream_error stream) eqn:Herr.
      * destruct H as (Hd & Hc & Hs & _). left. rewrite Hc. simpl.
        by rewrite Hreply; simpl; rewrite Herr.
      * destruct H as (Ho & Hd & Hc & Hs & Hf & _). right. eexists.
        rewrite Hc. simpl. by rewrite Hreply; simpl; rewrite Herr.
  - destruct (ollama_chat env _) as [e|e| |text] eqn:Hreply;
      destruct H as (Ho & Hd & Hc & Hs & Hf & _).
    1-3: left; rewrite Hc; simpl; by rewrite Hreply.
    right. exists text. rewrite Hc. simpl. by rewrite Hreply.
Qed.

(** X11: whatever the request and whatever the backends answer, the
    chat route only appends: the rows in place stay as they are, in
    place; at most two rows are added, with roles "user" and
    "assistant" and ids above every id in use; ids that increase in
    insertion order keep doing so. *)
Theorem chat_route_only_appends (env : Env) (b : ChatBody) (t : Table) :
  let w' := (chat_handler toLowerCase env b (start t)).2 in
  exists new,
    db w' = t ++ new
    /\ (length new <= 2)%nat
    /\ Forall (fun r => max_id t < id r) new
    /\ Forall (fun r => role r = "user" \/ role r = "assistant") new
    /\ (ascending t -> ascending (db w')).
Proof.
  intros w'. subst w'.
  destruct (chat_cases env b) as [Hn|[(m & err & Hm & Hdb)|(m & Hm & Hdb)]].
  - rewrite chat_malformed by done. exists []. simpl. rewrite app_nil_r.
    split_and!; try done. lia.
  - rewrite (chat_db_fault _ _ _ _ m err) by done. exists []. simpl.
    rewrite app_nil_r. split_and!; try done. lia.
  - assert (ascending t -> ascending (t ++ [user_row t m])) as Hu
      by (intros Ht; by apply (ascending_insert "user")).
    destruct (chat_outcome env b t m Hm Hdb) as [(Hd & _)|(text & Hd & _)];
      cbv zeta in Hd; rewrite Hd.
    + exists [user_row t m]. split_and!; [done|simpl; lia| | |done].
      * repeat constructor; simpl; unfold next_id; lia.
      * constructor; [by left|constructor].
    + exists [user_row t m; assistant_row (t ++ [user_row t m]) text].
      split_and!.
      * by rewrite <- app_assoc.
      * simpl. lia.
      * repeat constructor; simpl; unfold next_id;
          rewrite ?max_id_snoc; simpl; unfold next_id; lia.
      * constructor; [by left|constructor; [by right|constructor]].
      * intros Ht. by apply (ascending_insert "assistant"), Hu.
Qed.


(** X13: a request whose backend call fails, sent again and failing
    again, leaves two user rows: nothing deduplicates.  The two rows
    carry the same role, content and image, the second under a greater
    id. *)
Theorem retried_failed_request_stores_the_turn_twice
    (env : Env) (b : ChatBody) (t : Table) (m : Incoming) :
  incoming b = Some m -> db_all_err env = None ->
  let w1 := (chat_handler toLowerCase env b (start t)).2 in
  let w2 := (chat_handler toLowerCase env b (start (db w1))).2 in
  existsb (call_failed env) (calls w1) = true ->
  existsb (call_failed env) (calls w2) = true ->
  exists r1 r2,
    db w2 = t ++ [r1; r2]
    /\ role r1 = "user" /\ role r2 = "user"
    /\ content r1 = in_content m /\ content r2 = in_content m
    /\ image r1 = image r2
    /\ id r1 < id r2.
Proof.
  intros Hm Hdb w1 w2 H1 H2. subst w2 w1.
  destruct (chat_outcome env b t m Hm Hdb) as [(Hd1 & _)|(text & _ & _ & _ & _ & Hf)];
    [|rewrite Hf in H1; done].
  cbv zeta in Hd1. rewrite Hd1 in *.
  destruct (chat_outcome env b (t ++ [user_row t m]) m Hm Hdb)
    as [(Hd2 & _)|(text & _ & _ & _ & _ & Hf)];
    [|rewrite Hf in H2; done].
  cbv zeta in Hd2. rewrite Hd2.
  exists (user_row t m), (user_row (t ++ [user_row t m]) m).
  split_and!; try done.
  - by rewrite <- app_assoc.
  - simpl. unfold next_id. rewrite max_id_snoc. simpl. unfold next_id. lia.
Qed.

(** X14: for a request with an incoming turn and a working read, the
    response is ended under status 200 exactly when the backend call
    succeeded, which is exactly when the table gained an assistant row
    after the user row.  When the backend call failed the table gained
    the user row alone, and the response is either ended under status
    500 with the one body "Nova Error: ..." (nothing had been written
    before), or left un-ended after the fragments already written, the
    handler ending with the error of [res.send]. *)
Theorem ended_200_iff_assistant_turn_stored
    (env : Env) (b : ChatBody) (t : Table) (m : Incoming) :
  incoming b = Some m -> db_all_err env = None ->
  let run := chat_handler toLowerCase env b (start t) in
  let t1 := t ++ [user_row t m] in
  (finished (res run.2) = true /\ statusCode (res run.2) = 200
   <-> existsb (call_failed env) (calls run.2) = false)
  /\ (existsb (call_failed env) (calls run.2) = false
      <-> exists text, db run.2 = t1 ++ [assistant_row t1 text])
  /\ (existsb (call_failed env) (calls run.2) = true <-> db run.2 = t1)
  /\ (existsb (call_failed env) (calls run.2) = true ->
      (run.1 = Returned tt
       /\ finished (res run.2) = true
       /\ statusCode (res run.2) = 500
       /\ exists e, body (res run.2) = [Text ("Nova Error: " +:+ message e)])
      \/ (run.1 = Thrown headers_sent_error
          /\ finished (res run.2) = false
          /\ exists fragment fragments,
               body (res run.2) = map Text (fragment :: fragments))).
Proof.
  intros Hm Hdb run t1. subst run t1.
  pose proof (chat_run toLowerCase env b t m Hm Hdb) as H. cbv zeta in H.
  assert (forall text : option string,
            t ++ [user_row t m]
            <> (t ++ [user_row t m])
               ++ [assistant_row (t ++ [user_row t m]) text]) as Hlen.
  { intros text E%(f_equal length). rewrite !length_app in E. simpl in E. lia. }
  destruct (includes _ "gemini").
  - destruct (gemini_chat env _) as [e|stream] eqn:Hreply.
    + destruct H as (Ho & Hd & Hc & Hs & Hf & Hb).
      rewrite Hc, Hd, Hs, Hf, Ho, Hb. simpl. rewrite Hreply. simpl.
      split_and!; try (split; [try done|try done]).
      * by intros [].
      * intros [text E]. by apply Hlen in E.
      * intros _. left. split_and!; try done. by exists e.
    + destruct (stream_error stream) as [e|] eqn:Herr.
      * destruct H as (Hd & Hc & Hs & H).
        rewrite Hc, Hd, Hs. simpl. rewrite Hreply. simpl. rewrite Herr.
        split_and!; try (split; [try done|try done]).
        -- by intros [].
        -- intros [text E]. by apply Hlen in E.
        -- intros _. destruct (emitted stream) as [|c l].
           ++ destruct H as (Ho & Hf & Hb). left. split_and!; try done.
              by exists e.
           ++ destruct H as (Ho & Hf & Hb). right. split_and!; try done.
              by exists c, l.
      * destruct H as (Ho & Hd & Hc & Hs & Hf & Hb).
        rewrite Hc, Hd, Hs, Hf. simpl. rewrite Hreply. simpl. rewrite Herr.
        split_and!; try (split; [try done|try done]).
        -- intros _. by eexists.
        -- intros E. symmetry in E. by apply Hlen in E.
        -- done.
  - destruct (ollama_chat env _) as [e|e| |text] eqn:Hreply;
      destruct H as (Ho & Hd & Hc & Hs & Hf & Hb);
      rewrite Hc, Hd, Hs, Hf, Ho; simpl; rewrite Hreply; simpl.
    1-3: split_and!; try (split; [try done|try done]);
         [by intros []|intros [text E]; by apply Hlen in E|intros _; by left].
    split_and!; try (split; [try done|try done]).
    + intros _. by eexists.
    + intros E. symmetry in E. by apply Hlen in E.
    + done.
Qed.

End ChatCover.

(** * More on the model catalog *)

Section CatalogCover.

Import Js Store Server Spec Cover.

Lemma cloud_run (env : Env) (key : string) (w : World) :
  truthy (GOOGLE_API_KEY env) = true ->
  try_catch (cloud_models env key []) (fun _ => ret []) w
  = (Returned (default [] (cloud_source env)),
     mkWorld (db w) (res w) (calls w ++ [GeminiModelsCall key])).
Proof.
  intros Hkey. unfold cloud_source. rewrite Hkey.
  unfold try_catch, cloud_models, bind, log_call.
  destruct (gemini_models env) as [e|[models|]]; try done.
  destruct (filterM_run models
              (mkWorld (db w) (res w) (calls w ++ [GeminiModelsCall key])))
    as (o & -> & Ho).
  pose proof (cloud_filter_named models) as Hnamed.
  destruct (cloud_filter models) as [kept|].
  - subst o. by rewrite mapM_cloud_entry_run by by apply Hnamed.
  - by destruct Ho as [e ->].
Qed.

Lemma local_run (env : Env) (allModels : list ModelEntry) (w : World) :
  try_catch (local_models env allModels) (fun _ => ret allModels) w
  = (Returned (allModels ++ default [] (local_source env)),
     mkWorld (db w) (res w) (calls w ++ [OllamaTagsCall])).
Proof.
  unfold local_source, try_catch, local_models, bind, log_call, ret, throw.
  destruct (ollama_tags env) as [e| |e|[models|]]; simpl;
    by rewrite ?app_nil_r.
Qed.

(** The whole run of the listing. *)
Lemma models_run (env : Env) (t : Table) :
  models_handler env (start t)
  = (Returned tt,
     mkWorld t
       (mkResponse 200 (Some "application/json; charset=utf-8") true
          [JsonModels (default [] (cloud_source env)
                       ++ default [] (local_source env))]
          true)
       (match GOOGLE_API_KEY env with
        | Some (String a k) => [GeminiModelsCall (String a k)]
        | _ => []
        end ++ [OllamaTagsCall])).
Proof.
  unfold models_handler. unfold bind at 1.
  destruct (GOOGLE_API_KEY env) as [[|a k]|] eqn:Hkey.
  - unfold ret at 1. unfold bind at 1. rewrite local_run.
    unfold cloud_source. by rewrite Hkey.
  - rewrite cloud_run by by rewrite Hkey.
    unfold bind at 1. by rewrite local_run.
  - unfold ret at 1. unfold bind at 1. rewrite local_run.
    unfold cloud_source. by rewrite Hkey.
Qed.

Lemma cloud_filter_unreadable (models : list GeminiModelInfo) :
  forallb readable models = false -> cloud_filter models = None.
Proof.
  induction models as [|m models IH]; [done|]. cbn [forallb cloud_filter].
  unfold readable at 1.
  destruct (gm_name m) as [name|]; [|done].
  destruct (includes name "gemini").
  - destruct (gm_supportedGenerationMethods m) as [methods|]; [|done].
    simpl. intros H. rewrite (IH H). by destruct (existsb _ methods).
  - simpl. intros H. by rewrite (IH H).
Qed.

Lemma cloud_filter_readable (models : list GeminiModelInfo) :
  forallb readable models = true ->
  exists kept,
    cloud_filter models = Some kept
    /\ map cloud_label kept = map cloud_entry_of (List.filter listed models).
Proof.
  induction models as [|m models IH]; [by eexists|].
  cbn [forallb cloud_filter]. rewrite andb_true_iff. intros [Hm Hrest].
  destruct (IH Hrest) as (kept & -> & Hk). clear IH.
  cbn [List.filter]. unfold listed at 1. unfold readable in Hm.
  destruct (gm_name m) as [name|] eqn:Hn; [|done].
  destruct (includes name "gemini").
  - destruct (gm_supportedGenerationMethods m) as [methods|]; [|done].
    cbn [andb]. destruct (existsb _ methods).
    + eexists; split; [done|]. cbn [map]. rewrite Hk. f_equal.
      unfold cloud_label, cloud_entry_of. cbn [fst snd].
      rewrite Hn. by destruct name.
    + by eexists.
  - destruct (gm_supportedGenerationMethods m); cbn [andb]; by eexists.
Qed.

(** X15: one entry of the cloud listing the filter cannot read (no
    name, or a gemini name without generation methods) empties the
    cloud part as a whole, the readable gemini models with it; the
    listing is still answered 200, with the local models alone, each of
    them listed, one without a name under the label ending in
    "undefined". *)
Theorem unreadable_cloud_entry_empties_cloud_part
    (env : Env) (t : Table) (cloud : list GeminiModelInfo)
    (locals : list OllamaModelInfo) :
  truthy (GOOGLE_API_KEY env) = true ->
  gemini_models env = ListingJson (Some cloud) ->
  forallb readable cloud = false ->
  ollama_tags env = TagsJson (Some locals) ->
  let run := models_handler env (start t) in
  run.1 = Returned tt
  /\ statusCode (res run.2) = 200
  /\ body (res run.2)
     = [JsonModels
          (map (fun m => mkModelEntry (om_name m)
                           ("🏠 Ollama: " +:+ match om_name m with
                                              | Some name => name
                                              | None => "undefined"
                                              end))
               locals)].
Proof.
  intros Hkey Hcloud Hbad Hlocal run. subst run. rewrite models_run. simpl.
  split_and!; try done.
  unfold cloud_source, local_source.
  rewrite Hkey, Hcloud, (cloud_filter_unreadable cloud Hbad), Hlocal. done.
Qed.

(** X16: the listing calls the local endpoint on every request, and
    the cloud endpoint before it exactly when [GOOGLE_API_KEY] is a
    non-empty string; a failure of the cloud call does not keep the
    local call from being made. *)
Theorem listing_calls_cloud_only_with_key (env : Env) (t : Table) :
  let run := models_handler env (start t) in
  (truthy (GOOGLE_API_KEY env) = false -> calls run.2 = [OllamaTagsCall])
  /\ (forall key, GOOGLE_API_KEY env = Some key -> key <> "" ->
        calls run.2 = [GeminiModelsCall key; OllamaTagsCall])
  /\ In OllamaTagsCall (calls run.2)
  /\ Forall (fun ev => is_backend_call ev = false) (calls run.2).
Proof.
  intros run. subst run. rewrite models_run. simpl.
  destruct (GOOGLE_API_KEY env) as [[|a k]|]; simpl;
    split_and!; try done; try (by intros ? [= <-]); auto;
    by repeat constructor.
Qed.

(** X17: when every entry of the cloud listing can be read, the cloud
    part lists, in the order of the listing, exactly the models whose
    name contains "gemini" and whose generation methods include
    "generateContent", each under its name with the first "models/"
    removed and its display name after the cloud sign. *)
Theorem cloud_part_filters_gemini_generators
    (env : Env) (t : Table) (cloud : list GeminiModelInfo) :
  truthy (GOOGLE_API_KEY env) = true ->
  gemini_models env = ListingJson (Some cloud) ->
  forallb readable cloud = true ->
  let run := models_handler env (start t) in
  body (res run.2)
  = [JsonModels (map cloud_entry_of (List.filter listed cloud)
                 ++ default [] (local_source env))].
Proof.
  intros Hkey Hcloud Hok run. subst run. rewrite models_run. simpl.
  unfold cloud_source. rewrite Hkey, Hcloud.
  destruct (cloud_filter_readable cloud Hok) as (kept & -> & ->). done.
Qed.

Lemma replace_no_occurrence (s pat rep : string) :
  includes s pat = false -> replace s pat rep = s.
Proof.
  induction s as [|a s IH]; simpl.
  - by destruct (starts_with pat "").
  - destruct (starts_with pat (String a s)); [done|].
    intros H. by rewrite IH.
Qed.

Lemma drop_chars_append (pat rest : string) :
  drop_chars (String.length pat) (pat +:+ rest) = rest.
Proof. induction pat as [|a pat IH]; [done|]. exact IH. Qed.

Lemma replace_occurrence (s pat rep : string) :
  includes s pat = true ->
  exists before after,
    s = before +:+ pat +:+ after
    /\ (forall a1 a2, before = a1 +:+ a2 -> a2 <> "" ->
          starts_with pat (a2 +:+ pat +:+ after) = false)
    /\ replace s pat rep = before +:+ rep +:+ after.
Proof.
  induction s as [|a s IH]; simpl.
  - destruct (starts_with pat "") eqn:E; [|done]. intros _.
    destruct pat; [|done]. exists "", "".
    split_and!; [done| |done].
    intros a1 a2 H. by destruct a1, a2.
  - destruct (starts_with pat (String a s)) eqn:E.
    + intros _. apply starts_with_spec in E as [rest E]. exists "", rest.
      split_and!; [done| |].
      * intros a1 a2 H. by destruct a1, a2.
      * by rewrite E, drop_chars_append.
    + intros H. destruct (IH H) as (before & after & Hs & Hfirst & Hr).
      exists (String a before), after. split_and!.
      * by rewrite append_cons, <- Hs.
      * intros [|c a1] a2 Ha Hne.
        -- change (String a before = a2) in Ha. subst a2.
           by rewrite append_cons, <- Hs.
        -- rewrite append_cons in Ha. injection Ha as _ Ha. by eapply Hfirst.
      * by rewrite Hr, append_cons.
Qed.

(** X18: the id of a cloud entry is the model's name with its first
    occurrence of "models/" cut out: a name that starts with "models/"
    loses that prefix, a name without "models/" is kept as it is, and a
    later "models/" in the name stays. *)
Theorem cloud_id_cuts_first_models_prefix
    (m : GeminiModelInfo) (name : string) (w : World) :
  gm_name m = Some name ->
  exists id',
    cloud_entry m w
    = (Returned (mkModelEntry (Some id')
                   ("☁️ " +:+ to_display (gm_displayName m))), w)
    /\ (includes name "models/" = false -> id' = name)
    /\ (forall rest, name = "models/" +:+ rest -> id' = rest)
    /\ (includes name "models/" = true ->
        exists before after,
          name = before +:+ "models/" +:+ after
          /\ (forall a1 a2, before = a1 +:+ a2 -> a2 <> "" ->
                starts_with "models/" (a2 +:+ "models/" +:+ after) = false)
          /\ id' = before +:+ after).
Proof.
  intros Hn. exists (replace name "models/" "").
  unfold cloud_entry. rewrite Hn. split_and!; [done| | |].
  - apply replace_no_occurrence.
  - by intros rest ->.
  - intros H. destruct (replace_occurrence name "models/" "" H)
      as (before & after & ? & ? & ?). by exists before, after.
Qed.

End CatalogCover.

(** * Concrete runs for the further properties *)

Section CoverRuns.

Import Js Store Server Spec Sample Cover.

Lemma read_after_saving_hej_igen :
  ascending (db (start table_two))
  /\ db_all_err env_up = None
  /\ (getGlobalHistoryFromDB env_up false
        (saveToDB "user" (Some "hej igen") None (start table_two)).2).1
     = Returned (drop (length (db (start table_two)) + 1 - 60)
                   (map project (db (start table_two)))
                 ++ [mkMsg "user" (Some "hej igen") None]).
Proof.
  assert (ascending (db (start table_two))) as Ha
    by exact (ascending_appended _).
  split; [exact Ha|]. split; [reflexivity|].
  exact (read_after_save_ends_with_saved_turn env_up false "user"
           (Some "hej igen") None (start table_two) Ha eq_refl).
Defined.

Lemma locked_database_answers_500 :
  incoming body_local = Some local_turn
  /\ db_all_err env_db_fault = Some (mkError "SQLITE_BUSY: database is locked")
  /\ (chat_handler lower_utf8 env_db_fault body_local (start table_two)).1
     = Returned tt
  /\ db (chat_handler lower_utf8 env_db_fault body_local (start table_two)).2
     = table_two
  /\ statusCode
       (res (chat_handler lower_utf8 env_db_fault body_local (start table_two)).2)
     = 500
  /\ finished
       (res (chat_handler lower_utf8 env_db_fault body_local (start table_two)).2)
     = true
  /\ body (res (chat_handler lower_utf8 env_db_fault body_local (start table_two)).2)
     = [Text ("Nova Error: "
              +:+ message (mkError "SQLITE_BUSY: database is locked"))]
  /\ Forall (fun ev => is_backend_call ev = false)
       (calls (chat_handler lower_utf8 env_db_fault body_local (start table_two)).2)
  /\ (forall ro c im,
        ~ In (DbRun ro c im)
             (calls (chat_handler lower_utf8 env_db_fault body_local
                       (start table_two)).2)).
Proof.
  split; [reflexivity|]. split; [reflexivity|].
  exact (history_read_fault_loses_the_turn lower_utf8 env_db_fault body_local
           table_two local_turn _ eq_refl eq_refl).
Defined.


(** The same request on a response whose head has gone out: the send
    throws, twice, and both rows are in the table. *)
Example llama3_answer_stored_though_unsendable :
  chat_handler lower_utf8 env_up body_local
    (mkWorld table_two (mkResponse 200 None true [Text "x"] false) [])
  = (Thrown headers_sent_error,
     mkWorld
       (table_two
        ++ [mkRow 3 "user" (Some "hej igen") None;
            mkRow 4 "assistant" (Some "hej!") None])
       (mkResponse 500 None true [Text "x"] false)
       [DbAll 60; DbRun "user" (Some "hej igen") None;
        OllamaChatCall local_request; DbRun "assistant" (Some "hej!") None]).
Proof. reflexivity. Qed.

Lemma answer_without_message_answers_500 :
  In (OllamaChatCall local_request)
     (calls (chat_handler lower_utf8 env_cloud_broken body_local (start table_two)).2)
  /\ early_error env_cloud_broken (OllamaChatCall local_request)
     = Some (type_error_reading "content")
  /\ (chat_handler lower_utf8 env_cloud_broken body_local (start table_two)).1
     = Returned tt
  /\ statusCode
       (res (chat_handler lower_utf8 env_cloud_broken body_local
               (start table_two)).2)
     = 500
  /\ finished
       (res (chat_handler lower_utf8 env_cloud_broken body_local
               (start table_two)).2)
     = true
  /\ body (res (chat_handler lower_utf8 env_cloud_broken body_local
                  (start table_two)).2)
     = [Text ("Nova Error: " +:+ message (type_error_reading "content"))].
Proof.
  assert (In (OllamaChatCall local_request)
            (calls (chat_handler lower_utf8 env_cloud_broken body_local
                      (start table_two)).2))
    as Hin by (right; right; left; reflexivity).
  split; [exact Hin|]. split; [reflexivity|].
  exact (early_backend_failure_answered_500 lower_utf8 env_cloud_broken body_local
           table_two _ _ Hin eq_refl).
Defined.

Lemma stream_broken_after_Hel_stays_open :
  In (GeminiChatCall recall_call)
     (calls (chat_handler lower_utf8 env_down body_recall (start table_two)).2)
  /\ gemini_chat env_down recall_call
     = SendStream (StreamChunk "Hel" (StreamError (mkError "stream aborted")))
  /\ (chat_handler lower_utf8 env_down body_recall (start table_two)).1
     = Thrown headers_sent_error
  /\ finished
       (res (chat_handler lower_utf8 env_down body_recall (start table_two)).2)
     = false
  /\ body (res (chat_handler lower_utf8 env_down body_recall (start table_two)).2)
     = map Text
         (emitted (StreamChunk "Hel" (StreamError (mkError "stream aborted"))))
  /\ exists m,
       incoming body_recall = Some m
       /\ db (chat_handler lower_utf8 env_down body_recall (start table_two)).2
          = table_two ++ [user_row table_two m].
Proof.
  assert (In (GeminiChatCall recall_call)
            (calls (chat_handler lower_utf8 env_down body_recall (start table_two)).2))
    as Hin by (right; right; left; reflexivity).
  split; [exact Hin|]. split; [reflexivity|].
  refine (broken_stream_leaves_response_open lower_utf8 env_down body_recall
            table_two recall_call _ (mkError "stream aborted") Hin eq_refl eq_refl _).
  discriminate.
Defined.

Lemma blank_turn_gemini_payload :
  In (GeminiChatCall blank_call)
     (calls (chat_handler lower_utf8 env_up body_blank (start table_two)).2)
  /\ g_model blank_call = or_else (model body_blank) "gemini-1.5-flash"
  /\ g_systemInstruction blank_call = ASSISTANT_PERSONA env_up
  /\ text_then_image (g_message blank_call) = true
  /\ Forall (fun c => (g_role c = "user" \/ g_role c = "model")
                      /\ text_then_image (g_parts c) = true)
            (g_history blank_call)
  /\ exists m limit,
       incoming body_blank = Some m
       /\ (length (g_message blank_call) = 2%nat <-> truthy (in_image m) = true)
       /\ length (g_history blank_call) = length (recent limit table_two)
       /\ forall (i : nat) msg c,
            recent limit table_two !! i = Some msg ->
            g_history blank_call !! i = Some c ->
            (g_role c = "model" <-> msg_role msg = "assistant")
            /\ (length (g_parts c) = 2%nat <-> truthy (msg_image msg) = true).
Proof.
  assert (In (GeminiChatCall blank_call)
            (calls (chat_handler lower_utf8 env_up body_blank (start table_two)).2))
    as Hin by (right; right; left; reflexivity).
  split; [exact Hin|].
  exact (gemini_payload_shape lower_utf8 env_up body_blank table_two blank_call Hin).
Defined.

Lemma llama3_payload_verbatim :
  In (OllamaChatCall local_request)
     (calls (chat_handler lower_utf8 env_up body_local (start table_two)).2)
  /\ exists m limit,
       incoming body_local = Some m
       /\ o_model local_request = or_else (model body_local) "gemini-1.5-flash"
       /\ o_stream local_request = false
       /\ length (o_messages local_request) = S (length (recent limit table_two))
       /\ last (o_messages local_request)
          = Some (mkOllamaMessage "user" (in_content m)
                    (if truthy (in_image m) then (fun s => [s]) <$> in_image m
                     else None))
       /\ forall (i : nat) msg,
            recent limit table_two !! i = Some msg ->
            o_messages local_request !! i
            = Some (mkOllamaMessage (msg_role msg) (msg_content msg)
                      (if truthy (msg_image msg)
                       then (fun s => [s]) <$> msg_image msg
                       else None)).
Proof.
  assert (In (OllamaChatCall local_request)
            (calls (chat_handler lower_utf8 env_up body_local (start table_two)).2))
    as Hin by (right; right; left; reflexivity).
  split; [exact Hin|].
  exact (ollama_payload_verbatim lower_utf8 env_up body_local table_two
           local_request Hin).
Defined.

Lemma empty_model_goes_to_gemini_flash :
  incoming body_empty_model = Some local_turn
  /\ db_all_err env_up = None
  /\ truthy (model body_empty_model) = false
  /\ exists limit call later,
       calls (chat_handler lower_utf8 env_up body_empty_model (start table_two)).2
       = DbAll limit
           :: DbRun "user" (in_content local_turn) (or_null (in_image local_turn))
           :: GeminiChatCall call :: later
       /\ g_model call = "gemini-1.5-flash".
Proof.
  split; [reflexivity|]. split; [reflexivity|]. split; [reflexivity|].
  exact (missing_model_defaults_to_gemini_flash lower_utf8 env_up body_empty_model
           table_two local_turn eq_refl eq_refl eq_refl).
Defined.


Lemma recall_request_retried_is_stored_twice :
  incoming body_recall = Some recall_turn
  /\ db_all_err env_down = None
  /\ existsb (call_failed env_down)
       (calls (chat_handler lower_utf8 env_down body_recall (start table_two)).2)
     = true
  /\ existsb (call_failed env_down)
       (calls (chat_handler lower_utf8 env_down body_recall
                 (start (db (chat_handler lower_utf8 env_down body_recall
                               (start table_two)).2))).2)
     = true
  /\ exists r1 r2,
       db (chat_handler lower_utf8 env_down body_recall
             (start (db (chat_handler lower_utf8 env_down body_recall
                           (start table_two)).2))).2
       = table_two ++ [r1; r2]
       /\ role r1 = "user" /\ role r2 = "user"
       /\ content r1 = in_content recall_turn
       /\ content r2 = in_content recall_turn
       /\ image r1 = image r2
       /\ id r1 < id r2.
Proof.
  split; [reflexivity|]. split; [reflexivity|]. split; [reflexivity|].
  split; [reflexivity|].
  exact (retried_failed_request_stores_the_turn_twice lower_utf8 env_down
           body_recall table_two recall_turn eq_refl eq_refl eq_refl eq_refl).
Defined.

Lemma broken_stream_request_is_not_ended_200 :
  incoming body_recall = Some recall_turn
  /\ db_all_err env_down = None
  /\ (finished
        (res (chat_handler lower_utf8 env_down body_recall (start table_two)).2)
      = true
      /\ statusCode
           (res (chat_handler lower_utf8 env_down body_recall (start table_two)).2)
         = 200
      <-> existsb (call_failed env_down)
            (calls (chat_handler lower_utf8 env_down body_recall
                      (start table_two)).2)
          = false)
  /\ (existsb (call_failed env_down)
        (calls (chat_handler lower_utf8 env_down body_recall (start table_two)).2)
      = false
      <-> exists text,
            db (chat_handler lower_utf8 env_down body_recall (start table_two)).2
            = (table_two ++ [user_row table_two recall_turn])
              ++ [assistant_row (table_two ++ [user_row table_two recall_turn])
                    text])
  /\ (existsb (call_failed env_down)
        (calls (chat_handler lower_utf8 env_down body_recall (start table_two)).2)
      = true
      <-> db (chat_handler lower_utf8 env_down body_recall (start table_two)).2
          = table_two ++ [user_row table_two recall_turn])
  /\ (existsb (call_failed env_down)
        (calls (chat_handler lower_utf8 env_down body_recall (start table_two)).2)
      = true ->
      ((chat_handler lower_utf8 env_down body_recall (start table_two)).1
       = Returned tt
       /\ finished
            (res (chat_handler lower_utf8 env_down body_recall
                    (start table_two)).2)
          = true
       /\ statusCode
            (res (chat_handler lower_utf8 env_down body_recall
                    (start table_two)).2)
          = 500
       /\ exists e,
            body (res (chat_handler lower_utf8 env_down body_recall
                         (start table_two)).2)
            = [Text ("Nova Error: " +:+ message e)])
      \/ ((chat_handler lower_utf8 env_down body_recall (start table_two)).1
          = Thrown headers_sent_error
          /\ finished
               (res (chat_handler lower_utf8 env_down body_recall
                       (start table_two)).2)
             = false
          /\ exists fragment fragments,
               body (res (chat_handler lower_utf8 env_down body_recall
                            (start table_two)).2)
               = map Text (fragment :: fragments))).
Proof.
  split; [reflexivity|]. split; [reflexivity|].
  exact (ended_200_iff_assistant_turn_stored lower_utf8 env_down body_recall
           table_two recall_turn eq_refl eq_refl).
Defined.

Lemma nameless_cloud_entry_leaves_local_models :
  truthy (GOOGLE_API_KEY env_cloud_broken) = true
  /\ forallb readable
       [mkGeminiModelInfo (Some "models/gemini-1.5-flash")
          (Some ["generateContent"]) (Some "Gemini 1.5 Flash");
        mkGeminiModelInfo None (Some ["generateContent"]) None]
     = false
  /\ (models_handler env_cloud_broken (start table_two)).1 = Returned tt
  /\ statusCode (res (models_handler env_cloud_broken (start table_two)).2) = 200
  /\ body (res (models_handler env_cloud_broken (start table_two)).2)
     = [JsonModels
          (map (fun m => mkModelEntry (om_name m)
                           ("🏠 Ollama: " +:+ match om_name m with
                                              | Some name => name
                                              | None => "undefined"
                                              end))
               [mkOllamaModelInfo (Some "llama3"); mkOllamaModelInfo None])].
Proof.
  split; [reflexivity|]. split; [reflexivity|].
  exact (unreadable_cloud_entry_empties_cloud_part env_cloud_broken table_two
           _ _ eq_refl eq_refl eq_refl eq_refl).
Defined.

Lemma readable_cloud_listing_is_filtered :
  truthy (GOOGLE_API_KEY env_up) = true
  /\ body (res (models_handler env_up (start table_two)).2)
     = [JsonModels
          (map cloud_entry_of
             (List.filter listed
                [mkGeminiModelInfo (Some "models/gemini-1.5-flash")
                   (Some ["generateContent"; "countTokens"])
                   (Some "Gemini 1.5 Flash");
                 mkGeminiModelInfo (Some "models/embedding-001")
                   (Some ["embedContent"]) (Some "Embedding 001")])
           ++ default [] (local_source env_up))].
Proof.
  split; [reflexivity|].
  exact (cloud_part_filters_gemini_generators env_up table_two _
           eq_refl eq_refl eq_refl).
Defined.

Lemma gemini_flash_id_without_prefix :
  exists id',
    cloud_entry
      (mkGeminiModelInfo (Some "models/gemini-1.5-flash")
         (Some ["generateContent"]) (Some "Gemini 1.5 Flash"))
      (start table_two)
    = (Returned (mkModelEntry (Some id')
                   ("☁️ " +:+ to_display (Some "Gemini 1.5 Flash"))),
       start table_two)
    /\ (includes "models/gemini-1.5-flash" "models/" = false ->
        id' = "models/gemini-1.5-flash")
    /\ (forall rest, "models/gemini-1.5-flash" = "models/" +:+ rest -> id' = rest)
    /\ (includes "models/gemini-1.5-flash" "models/" = true ->
        exists before after,
          "models/gemini-1.5-flash" = before +:+ "models/" +:+ after
          /\ (forall a1 a2, before = a1 +:+ a2 -> a2 <> "" ->
                starts_with "models/" (a2 +:+ "models/" +:+ after) = false)
          /\ id' = before +:+ after).
Proof.
  exact (cloud_id_cuts_first_models_prefix
           (mkGeminiModelInfo (Some "models/gemini-1.5-flash")
              (Some ["generateContent"]) (Some "Gemini 1.5 Flash"))
           "models/gemini-1.5-flash" (start table_two) eq_refl).
Defined.

Example listing_with_nameless_cloud_entry :
  body (res (models_handler env_cloud_broken (start table_two)).2)
  = [JsonModels
       [mkModelEntry (Some "llama3") "🏠 Ollama: llama3";
        mkModelEntry None "🏠 Ollama: undefined"]]
  /\ calls (models_handler env_cloud_broken (start table_two)).2
     = [GeminiModelsCall "key"; OllamaTagsCall]
  /\ calls (models_handler env_down (start table_two)).2 = [OllamaTagsCall].
Proof. by vm_compute. Qed.

End CoverRuns.
